(** * Fabric host fan-out: a shallow embedding of [fabric/executor.py] and
    [fabric/tasks.py], with the properties of the host normalizer, of call
    parameterization and of the task decorator.

    Python objects live in an explicit store; every function of the source is
    a computation over that store which either returns, raises a Python
    exception, or leaves the modelled fragment. *)

From Stdlib Require Import ZArith List Lia Ascii.
From stdpp Require Import base option list gmap strings pretty.

Open Scope string_scope.
Open Scope list_scope.

(** ** Values, objects and the store *)

Abbreviation loc := nat.

(** Immediate values are immutable; everything with identity is a reference
    into the store. *)
Inductive value : Type :=
| VNone
| VBool (b : bool)
| VInt (n : Z)
| VStr (s : string)
| VRef (l : loc).

(** Classes of the instances that occur in the two modules. *)
Inductive klass : Type :=
| KFunction          (* a plain [def] function object *)
| KContext           (* invoke.Context *)
| KInvokeTask        (* invoke.Task *)
| KTask              (* fabric.tasks.Task(invoke.Task) *)
| KCall              (* invoke.Call *)
| KConnectionCall    (* fabric.tasks.ConnectionCall(invoke.Call) *)
| KConnection.       (* fabric.connection.Connection *)

Inductive obj : Type :=
| OList (xs : list value)
| OTuple (xs : list value)
| ODict (d : gmap string value)
| OInst (c : klass) (attrs : gmap string value).

Abbreviation heap := (list obj).

#[global] Instance value_eq_dec : EqDecision value.
Proof. solve_decision. Defined.

#[global] Instance klass_eq_dec : EqDecision klass.
Proof. solve_decision. Defined.

(** ** Exceptions and the computation monad *)

(** A message is kept as the pieces of the format string that built it: a
    literal, or a value substituted into a replacement field. *)
Inductive msg_part : Type :=
| Lit (s : string)
| Fmt (v : value)          (* the value, formatted *)
| FmtType (v : value).     (* the type of the value, formatted *)

Inductive exn : Type :=
| ValueError (msg : list msg_part)
| TypeError (msg : list msg_part)
| KeyError (key : string)
| NameError (name : string)
| AttributeError (name : string)
| IndexError
| NothingToDo.

Inductive outcome (A : Type) : Type :=
| Ok (a : A)
| Raise (e : exn)
| Stuck.   (* loop budget exhausted, or an object shape outside the model *)

Arguments Ok {A} a.
Arguments Raise {A} e.
Arguments Stuck {A}.

Definition M (A : Type) : Type := heap -> outcome A * heap.

Definition ret {A} (a : A) : M A := fun h => (Ok a, h).

Definition bind {A B} (m : M A) (k : A -> M B) : M B :=
  fun h =>
    match m h with
    | (Ok a, h') => k a h'
    | (Raise e, h') => (Raise e, h')
    | (Stuck, h') => (Stuck, h')
    end.

Definition raise {A} (e : exn) : M A := fun h => (Raise e, h).
Definition stuck {A} : M A := fun h => (Stuck, h).

Declare Scope py_scope.
Delimit Scope py_scope with py.
Notation "'let*' x ':=' m 'in' k" := (bind m (fun x => k))
  (at level 10, x name, m at level 100, k at level 200) : py_scope.
Notation "m '>>' k" := (bind m (fun _ => k))
  (at level 100, k at level 200, right associativity) : py_scope.
Open Scope py_scope.

(** *** Store primitives *)

Definition alloc (o : obj) : M loc :=
  fun h => (Ok (length h), h ++ [o]).

Definition deref (l : loc) : M obj :=
  fun h => match h !! l with
           | Some o => (Ok o, h)
           | None => (Stuck, h)
           end.

Definition store (l : loc) (o : obj) : M unit :=
  fun h => (Ok tt, <[l := o]> h).

(** [isinstance(v, str)] *)
Definition isinstance_str (v : value) : bool :=
  match v with VStr _ => true | _ => false end.

(** [isinstance(v, dict)] *)
Definition isinstance_dict (v : value) : M bool :=
  match v with
  | VRef l =>
      let* o := deref l in
      match o with ODict _ => ret true | _ => ret false end
  | _ => ret false
  end.

(** [isinstance(v, c)] for the instance classes; [ConnectionCall] is a
    subclass of [Call] and fabric's [Task] of invoke's. *)
Definition subclass (c d : klass) : bool :=
  match c, d with
  | KConnectionCall, KCall => true
  | KTask, KInvokeTask => true
  | KConnection, KContext => true
  | _, _ => bool_decide (c = d)
  end.

Definition isinstance (v : value) (c : klass) : M bool :=
  match v with
  | VRef l =>
      let* o := deref l in
      match o with OInst k _ => ret (subclass k c) | _ => ret false end
  | _ => ret false
  end.

(** [lst.append(v)] on a list object. *)
Definition list_append (l : loc) (v : value) : M unit :=
  let* o := deref l in
  match o with
  | OList xs => store l (OList (xs ++ [v]))
  | _ => raise (AttributeError "append")
  end.

(** The characters of a string, each as a one-character string: what
    iterating a [str] yields. *)
Fixpoint chars (s : string) : list value :=
  match s with
  | EmptyString => []
  | String c s' => VStr (String c EmptyString) :: chars s'
  end.

(** The [i]-th step of a [for] loop over [it]: [Some v] is the next element,
    [None] is [StopIteration].  A list is read from the store at every step,
    as Python's list iterator does. *)
Definition iter_next (it : value) (i : nat) : M (option value) :=
  match it with
  | VRef l =>
      let* o := deref l in
      match o with
      | OList xs | OTuple xs => ret (xs !! i)
      | OInst _ _ => raise (TypeError [Lit "object is not iterable"])
      | ODict _ => stuck
      end
  | VStr s => ret (chars s !! i)
  | _ => raise (TypeError [Lit "object is not iterable"])
  end.

(** Truth value of an object, as tested by [if x:]. *)
Definition truthy (v : value) : M bool :=
  match v with
  | VNone => ret false
  | VBool b => ret b
  | VInt n => ret (negb (Z.eqb n 0))
  | VStr s => ret (negb (String.eqb s ""))
  | VRef l =>
      let* o := deref l in
      match o with
      | OList xs | OTuple xs => ret (negb (Nat.eqb (length xs) 0))
      | ODict d => ret (negb (bool_decide (d = ∅)))
      | OInst _ _ => ret true
      end
  end.

(** [obj.name] *)
Definition getattr (v : value) (name : string) : M value :=
  match v with
  | VRef l =>
      let* o := deref l in
      match o with
      | OInst _ attrs =>
          match attrs !! name with
          | Some x => ret x
          | None => raise (AttributeError name)
          end
      | _ => raise (AttributeError name)
      end
  | _ => raise (AttributeError name)
  end.

(** [obj.name = x]; only instances carry an attribute dictionary. *)
Definition setattr (v : value) (name : string) (x : value) : M unit :=
  match v with
  | VRef l =>
      let* o := deref l in
      match o with
      | OInst c attrs => store l (OInst c (<[name := x]> attrs))
      | _ => raise (AttributeError name)
      end
  | _ => raise (AttributeError name)
  end.

(** [callable(v)]: functions, and tasks through their [__call__]. *)
Definition callable (v : value) : M bool :=
  match v with
  | VRef l =>
      let* o := deref l in
      match o with
      | OInst (KFunction | KInvokeTask | KTask) _ => ret true
      | _ => ret false
      end
  | _ => ret false
  end.

(** The mapping unpacked by [**v] at a call site. *)
Definition unpack_kwargs (v : value) : M (gmap string value) :=
  match v with
  | VRef l =>
      let* o := deref l in
      match o with
      | ODict d => ret d
      | _ => raise (TypeError [Lit "argument after ** must be a mapping"])
      end
  | _ => raise (TypeError [Lit "argument after ** must be a mapping"])
  end.

(** [obj[key]] with a string key. *)
Definition getitem (v : value) (key : string) : M value :=
  match v with
  | VRef l =>
      let* o := deref l in
      match o with
      | ODict d =>
          match d !! key with
          | Some x => ret x
          | None => raise (KeyError key)
          end
      | OList _ | OTuple _ =>
          raise (TypeError [Lit "indices must be integers or slices, not str"])
      | OInst _ _ => raise (TypeError [Lit "object is not subscriptable"])
      end
  | VStr _ => raise (TypeError [Lit "string indices must be integers"])
  | _ => raise (TypeError [Lit "object is not subscriptable"])
  end.

(** [str(v)], as a replacement field without format spec renders it; the
    text of a container or of an instance is outside the model. *)
Definition py_str (v : value) : M string :=
  match v with
  | VNone => ret "None"
  | VBool true => ret "True"
  | VBool false => ret "False"
  | VInt n => ret (pretty n)
  | VStr s => ret s
  | VRef _ => stuck
  end.

(** [s[:-1]]: the string without its last character. *)
Fixpoint str_init (s : string) : string :=
  match s with
  | EmptyString => EmptyString
  | String c s' =>
      match s' with
      | EmptyString => EmptyString
      | String _ _ => String c (str_init s')
      end
  end.

(** What a decorator expression evaluates to: an object, or a function
    closure still waiting for the callable it decorates. *)
Inductive decorated : Type :=
| Result (v : value)
| Decorator (f : value -> M value).

(** ** The collaborators outside the two modules

    [invoke] is a third-party package and [fabric.connection] is not part of
    the sources at hand; the embedding of the source takes them as a
    parameter. *)
Record library : Type := {
  (* invoke.Call.__init__(self, *args, **kwargs) *)
  invoke_Call_init : loc -> list value -> gmap string value -> M unit;
  (* invoke.Task.__init__(self, *args, **kwargs) *)
  invoke_Task_init : loc -> list value -> gmap string value -> M unit;
  (* invoke.task( *args, **kwargs) *)
  invoke_task : list value -> gmap string value -> M decorated;
  (* obj( *args) for an object of the library *)
  call_object : value -> list value -> M value;
  (* fabric.connection.Connection( **kwargs) *)
  Connection_new : gmap string value -> M value
}.

(** *** A reference library

    The behaviour of invoke's [Call], [Task] and [@task] as that package
    documents it, cut down to what the fan-out code touches: parameter
    binding, the attributes set by the initializers, the two shapes of
    [@task], and the context guard of [Task.__call__]. *)
Module Invoke.

Fixpoint bind_positional (names : list string) (args : list value)
    : option (gmap string value) :=
  match args, names with
  | [], _ => Some ∅
  | a :: args', n :: names' => <[n := a]> <$> bind_positional names' args'
  | _ :: _, [] => None
  end.

Definition bind_params (names : list string) (args : list value)
    (kwargs : gmap string value) : M (gmap string value) :=
  match bind_positional names args with
  | None => raise (TypeError [Lit "too many positional arguments"])
  | Some pos =>
      if forallb (fun n => negb (bool_decide (is_Some (pos !! n)) &&
                                 bool_decide (is_Some (kwargs !! n)))) names
      then
        if forallb (fun kv => bool_decide (kv.1 ∈ names)) (map_to_list kwargs)
        then ret (pos ∪ kwargs)
        else raise (TypeError [Lit "unexpected keyword argument"])
      else raise (TypeError [Lit "multiple values for argument"])
  end.

(** [v or <fresh o>] *)
Definition or_else (v : value) (o : obj) : M value :=
  let* t := truthy v in
  if t then ret v else let* l := alloc o in ret (VRef l).

(** [Call.__init__(self, task, called_as=None, args=None, kwargs=None)] *)
Definition Call_init (self : loc) (args : list value)
    (kwargs : gmap string value) : M unit :=
  let* p := bind_params ["task"; "called_as"; "args"; "kwargs"] args kwargs in
  match p !! "task" with
  | None => raise (TypeError [Lit "missing required argument: 'task'"])
  | Some task =>
      setattr (VRef self) "task" task >>
      setattr (VRef self) "called_as" (default VNone (p !! "called_as")) >>
      let* a := or_else (default VNone (p !! "args")) (OTuple []) in
      setattr (VRef self) "args" a >>
      let* k := or_else (default VNone (p !! "kwargs")) (ODict ∅) in
      setattr (VRef self) "kwargs" k
  end.

Definition Task_params : list string :=
  ["body"; "name"; "aliases"; "positional"; "optional"; "default";
   "auto_shortflags"; "help"; "pre"; "post"; "autoprint"; "iterable";
   "incrementable"].

(** [Task.__init__(self, body, name=None, ...)]: the body and the metadata
    given are recorded on the instance (defaults are not materialised). *)
Definition Task_init (self : loc) (args : list value)
    (kwargs : gmap string value) : M unit :=
  let* p := bind_params Task_params args kwargs in
  match p !! "body" with
  | None => raise (TypeError [Lit "missing required argument: 'body'"])
  | Some _ =>
      let* o := deref self in
      match o with
      | OInst c attrs => store self (OInst c (p ∪ attrs))
      | _ => stuck
      end
  end.

Definition Task_new (args : list value) (kwargs : gmap string value)
    : M value :=
  let* self := alloc (OInst KInvokeTask ∅) in
  Task_init self args kwargs >>
  ret (VRef self).

(** [Task.__call__(self, *args)]: refuses anything but a context as first
    argument; running the user's body is outside the model. *)
Definition Task_call (self : value) (args : list value) : M value :=
  match args with
  | [] => raise IndexError
  | ctx :: _ =>
      let* ok := isinstance ctx KContext in
      if ok then stuck
      else raise (TypeError [Lit "Task expected a Context as first arg, got ";
                             FmtType ctx; Lit " instead!"])
  end.

(** The closure [inner] returned by [@task(...)]. *)
Definition inner (kwargs : gmap string value) (body : value) : M value :=
  Task_new [body] kwargs.

(** [invoke.task( *args, **kwargs)] *)
Definition task (args : list value) (kwargs : gmap string value)
    : M decorated :=
  match kwargs !! "klass" with
  | Some _ => stuck
  | None =>
      let* direct :=
        match args with
        | [a] =>
            let* c := callable a in
            if c then
              let* t := isinstance a KInvokeTask in
              ret (if t then None else Some a)
            else ret None
        | _ => ret None
        end in
      match direct with
      | Some body =>
          (* @task -- no options were given *)
          let* t := Task_new [body] kwargs in ret (Result t)
      | None =>
          match args with
          | [] => ret (Decorator (inner kwargs))
          | _ :: _ =>
              (* @task(pre, tasks, here) *)
              match kwargs !! "pre" with
              | Some _ =>
                  raise (TypeError
                    [Lit "May not give *args and 'pre' kwarg simultaneously!"])
              | None =>
                  let* pre := alloc (OTuple args) in
                  ret (Decorator (inner (<["pre" := VRef pre]> kwargs)))
              end
          end
      end
  end.

Definition call (v : value) (args : list value) : M value :=
  let* t := isinstance v KInvokeTask in
  if t then Task_call v args
  else
    let* c := callable v in
    if c then stuck
    else raise (TypeError [Lit "object is not callable"]).

(** Modelled from the spec: the Connection capability of section 6, whose
    module [fabric/connection.py] is not among the sources: constructible
    from a Connection Parameter Record's keys, which it exposes as
    attributes ([host], [user], [port], ...); no transport is opened. *)
Definition Connection (kwargs : gmap string value) : M value :=
  let* l := alloc (OInst KConnection kwargs) in ret (VRef l).

Definition lib : library := {|
  invoke_Call_init := Call_init;
  invoke_Task_init := Task_init;
  invoke_task := task;
  call_object := call;
  Connection_new := Connection
|}.

End Invoke.

(** ** [fabric/tasks.py] *)

Module Tasks.
Section WithLibrary.
Variable lib : library.

(** [Task.__init__(self, *args, **kwargs)] *)
Definition Task_init (self : loc) (args : list value)
    (kwargs : gmap string value) : M unit :=
  setattr (VRef self) "hosts" (default VNone (kwargs !! "hosts")) >>
  invoke_Task_init lib self args (delete "hosts" kwargs).

(** [Task( *args, **kwargs)] *)
Definition Task_new (args : list value) (kwargs : gmap string value)
    : M value :=
  let* self := alloc (OInst KTask ∅) in
  Task_init self args kwargs >>
  ret (VRef self).

(** The closure [wrapper] of [task], over [hosts], [args] and [kwargs]. *)
Definition wrapper (hosts : value) (args : list value)
    (kwargs : gmap string value) (func : value) : M value :=
  let* t := truthy hosts in
  (if t then setattr func "hosts" hosts else ret tt) >>
  let* deco := invoke_task lib args kwargs in
  match deco with
  | Decorator f => f func
  | Result v => call_object lib v [func]
  end.

(** [task( *args, **kwargs)] *)
Definition task (args : list value) (kwargs : gmap string value)
    : M decorated :=
  let hosts := default VNone (kwargs !! "hosts") in
  let kwargs := delete "hosts" kwargs in
  match args with
  | [a] =>
      let* c := callable a in
      if c then let* r := wrapper hosts args kwargs a in ret (Result r)
      else ret (Decorator (wrapper hosts args kwargs))
  | _ => ret (Decorator (wrapper hosts args kwargs))
  end.

(** [@task] written above [def func]: [func = task(func)]. *)
Definition decorate_bare (func : value) : M decorated :=
  task [func] ∅.

(** [@task( *args, **kwargs)] written above [def func]:
    [func = task( *args, **kwargs)(func)]. *)
Definition decorate_with (args : list value) (kwargs : gmap string value)
    (func : value) : M decorated :=
  let* d := task args kwargs in
  match d with
  | Decorator w => let* r := w func in ret (Result r)
  | Result v => let* r := call_object lib v [func] in ret (Result r)
  end.

(** [ConnectionCall.__init__(self, *args, **kwargs)] *)
Definition ConnectionCall_init (self : loc) (args : list value)
    (kwargs : gmap string value) : M unit :=
  match kwargs !! "init_kwargs" with
  | None => raise (KeyError "init_kwargs")
  | Some init_kwargs =>
      invoke_Call_init lib self args (delete "init_kwargs" kwargs) >>
      setattr (VRef self) "init_kwargs" init_kwargs
  end.

(** [ConnectionCall( *args, **kwargs)] *)
Definition ConnectionCall_new (args : list value)
    (kwargs : gmap string value) : M value :=
  let* self := alloc (OInst KConnectionCall ∅) in
  ConnectionCall_init self args kwargs >>
  ret (VRef self).

End WithLibrary.

Section WithCallRepr.
(* invoke.Call.__repr__(self) *)
Variable Call_repr : value -> M string.

(** [ConnectionCall.__repr__(self)] *)
Definition ConnectionCall_repr (self : value) : M string :=
  let* ret_ := Call_repr self in
  let* init_kwargs := getattr self "init_kwargs" in
  let* t := truthy init_kwargs in
  if t then
    let* host := getitem init_kwargs "host" in
    let* s := py_str host in
    ret (str_init ret_ ++ ", host='" ++ s ++ "'>")%string
  else ret ret_.

End WithCallRepr.
End Tasks.

(** ** [fabric/executor.py] *)

Module Executor.

(** What a module-level name is bound to. *)
Inductive binding : Type :=
| BModule (name : string)
| BClass (c : klass)
| BOther (name : string).

(** The global names of [fabric/executor.py]: its five import statements and
    the class it defines. *)
Definition executor_globals : gmap string binding :=
  {[ "invoke" := BModule "invoke";
     "Call" := BClass KCall;
     "Task" := BClass KInvokeTask;
     "ConnectionCall" := BClass KConnectionCall;
     "NothingToDo" := BOther "NothingToDo";
     "debug" := BOther "debug";
     "Executor" := BOther "Executor" ]}.

(** A name that is not local to the function is looked up among the module's
    globals (none of the names used is a builtin). *)
Definition load_global (globals : gmap string binding) (name : string)
    : M binding :=
  match globals !! name with
  | Some b => ret b
  | None => raise (NameError name)
  end.

(** The body of [for host in hosts:], iterated from position [i]. *)
Fixpoint normalize_loop (fuel : nat) (hosts : value) (normalized : loc)
    (i : nat) : M unit :=
  match fuel with
  | 0 => stuck
  | S fuel' =>
      let* nxt := iter_next hosts i in
      match nxt with
      | None => ret tt
      | Some host =>
          if isinstance_str host then
            let* d := alloc (ODict {[ "host" := host ]}) in
            list_append normalized (VRef d) >>
            normalize_loop fuel' hosts normalized (S i)
          else
            let* is_dict := isinstance_dict host in
            if is_dict then
              list_append normalized host >>
              normalize_loop fuel' hosts normalized (S i)
            else
              raise (ValueError [Lit "Invalid host specification: "; Fmt host])
      end
  end.

(** [normalize_hosts(self, hosts)]; [self] is not used by the body. *)
Definition normalize_hosts (fuel : nat) (hosts : value) : M value :=
  let* normalized := alloc (OList []) in
  normalize_loop fuel hosts normalized 0 >>
  ret (VRef normalized).

Section WithLibrary.
Variable lib : library.

(** [cls( **kwargs)] for a class the name resolved to. *)
Definition instantiate (b : binding) (kwargs : gmap string value) : M value :=
  match b with
  | BClass KConnection => Connection_new lib kwargs
  | BClass KConnectionCall => Tasks.ConnectionCall_new lib [] kwargs
  | BClass KTask => Tasks.Task_new lib [] kwargs
  | BClass KCall =>
      let* self := alloc (OInst KCall ∅) in
      invoke_Call_init lib self [] kwargs >> ret (VRef self)
  | BClass KInvokeTask =>
      let* self := alloc (OInst KInvokeTask ∅) in
      invoke_Task_init lib self [] kwargs >> ret (VRef self)
  | BClass (KFunction | KContext) => stuck
  | BModule _ => raise (TypeError [Lit "'module' object is not callable"])
  | BOther _ => stuck
  end.

(** [parameterize(self, call, connection_init_kwargs)], run in a module whose
    global names are [globals]. *)
Definition parameterize_in (globals : gmap string binding)
    (call connection_init_kwargs : value) : M value :=
  (* from .tasks import ConnectionCall *)
  let* task := getattr call "task" in
  let* args := getattr call "args" in
  let* kwargs := getattr call "kwargs" in
  let* connection_call :=
    Tasks.ConnectionCall_new lib []
      {[ "task" := task; "args" := args; "kwargs" := kwargs;
         "init_kwargs" := connection_init_kwargs ]} in
  let* Connection := load_global globals "Connection" in
  let* kw := unpack_kwargs connection_init_kwargs in
  let* context := instantiate Connection kw in
  setattr connection_call "context" context >>
  ret connection_call.

Definition parameterize (call connection_init_kwargs : value) : M value :=
  parameterize_in executor_globals call connection_init_kwargs.

End WithLibrary.
End Executor.

(** ** The fan-out decision *)

Module FanOut.
Section WithParameterize.
(* the call parameterizer of section 4.2 *)
Variable parameterize : value -> value -> M value.

Definition read_list (l : loc) : M (list value) :=
  let* o := deref l in
  match o with
  | OList xs => ret xs
  | _ => stuck
  end.

(** Modelled from the spec: the RESOLVE_HOSTS state of the Fan-Out Executor
    (section 4.3), which the [Executor] class of the source does not define
    (it has [normalize_hosts] and [parameterize] only): the effective host
    list is the CLI-override list if supplied and non-empty, else the Task
    Descriptor's static host list, else none. *)
Definition resolve_hosts (cli static : option loc) : M (option loc) :=
  match cli with
  | Some l =>
      let* xs := read_list l in
      match xs with
      | [] => ret static
      | _ :: _ => ret (Some l)
      end
  | None => ret static
  end.

(** Modelled from the spec: the PARAMETERIZED state (section 4.3), absent
    from the source: one ConnectionCall per Connection Parameter Record, in
    the order of the normalized host list, all from the same Call. *)
Fixpoint parameterize_all (call : value) (records : list value)
    : M (list value) :=
  match records with
  | [] => ret []
  | r :: rs =>
      let* c := parameterize call r in
      let* cs := parameterize_all call rs in
      ret (c :: cs)
  end.

(** Modelled from the spec: the decision of section 4.3, absent from the
    source.  With no effective host list the single vanilla Call is handed on
    unchanged; a host list that normalizes to an empty sequence signals
    NothingToDo; otherwise the batch is one ConnectionCall per host.  The
    result is the batch handed to the task engine. *)
Definition expand (fuel : nat) (cli static : option loc) (call : value)
    : M (list value) :=
  let* effective := resolve_hosts cli static in
  match effective with
  | None => ret [call]
  | Some hosts =>
      let* normalized := Executor.normalize_hosts fuel (VRef hosts) in
      let* records :=
        match normalized with
        | VRef l => read_list l
        | _ => stuck
        end in
      match records with
      | [] => raise NothingToDo
      | _ :: _ => parameterize_all call records
      end
  end.

End WithParameterize.
End FanOut.

(** ** [fabric/testing/base.py]: [Command] and [Session] *)

Module Testing.

(** The arguments of the test helpers are plain data: [None], booleans,
    integers, strings and byte strings. *)
Inductive arg : Type :=
| ANone
| ABool (b : bool)
| AInt (n : Z)
| AStr (s : string)
| ABytes (s : string).

Definition arg_truthy (a : arg) : bool :=
  match a with
  | ANone => false
  | ABool b => b
  | AInt n => negb (Z.eqb n 0)
  | AStr s | ABytes s => negb (String.eqb s "")
  end.

(** [a or b] *)
Definition arg_or (a b : arg) : arg :=
  if arg_truthy a then a else b.

(** [a is not None] *)
Definition is_not_None (a : arg) : bool :=
  match a with ANone => false | _ => true end.

Record Command : Type := {
  cmd : arg; out : arg; err : arg; in_ : arg; exit : arg; waits : arg
}.

(** [Command( **kwargs)], that is
    [__init__(self, cmd=None, out=b'', err=b'', in_=None, exit=0, waits=0)]
    called with keywords only. *)
Definition Command_new (kwargs : gmap string arg) : Command :=
  {| cmd := default ANone (kwargs !! "cmd");
     out := default (ABytes "") (kwargs !! "out");
     err := default (ABytes "") (kwargs !! "err");
     in_ := default ANone (kwargs !! "in_");
     exit := default (AInt 0) (kwargs !! "exit");
     waits := default (AInt 0) (kwargs !! "waits") |}.

Record Session : Type := {
  guard_only : bool;
  host : arg;
  user : arg;
  port : arg;
  commands : list Command;
  _enable_sftp : arg;
  transfers : option (list (gmap string arg))
}.

(** Truth value of an optional list argument ([None] or a list). *)
Definition list_truthy {A} (l : option (list A)) : bool :=
  match l with
  | Some (_ :: _) => true
  | _ => false
  end.

(** [kwargs[key] = a] when [a is not None] *)
Definition set_if_given (key : string) (a : arg) (kwargs : gmap string arg)
    : gmap string arg :=
  if is_not_None a then <[key := a]> kwargs else kwargs.

(** [Session.__init__(self, host, user, port, commands, cmd, out, in_, err,
    exit, waits, enable_sftp, transfers)]; [commands] and [transfers] are
    [None] or lists.  The result is the initialized instance. *)
Definition Session_init (host_ user_ port_ : arg)
    (commands_ : option (list Command)) (cmd_ out_ in__ err_ exit_ waits_ : arg)
    (enable_sftp : arg) (transfers_ : option (list (gmap string arg)))
    : outcome Session :=
  let params := arg_or cmd_ (arg_or out_ (arg_or err_ (arg_or exit_ waits_))) in
  if list_truthy commands_ && arg_truthy params then
    Raise (ValueError
      [Lit "You can't give both 'commands' and individual Command parameters!"])
  else
    let guard := negb (list_truthy commands_ || arg_truthy cmd_
                       || list_truthy transfers_) in
    let commands1 : option (list Command) :=
      if arg_truthy params then
        let kwargs :=
          set_if_given "waits" waits_
            (set_if_given "exit" exit_
              (set_if_given "in_" in__
                (set_if_given "err" err_
                  (set_if_given "out" out_
                    (set_if_given "cmd" cmd_ ∅))))) in
        Some [Command_new kwargs]
      else commands_ in
    let commands2 : list Command :=
      match commands1 with
      | Some (c :: cs) => c :: cs
      | _ => [Command_new ∅]
      end in
    Ok {| guard_only := guard;
          host := host_; user := user_; port := port_;
          commands := commands2;
          _enable_sftp := enable_sftp;
          transfers := transfers_ |}.

End Testing.

(** ** [posixpath]: the three functions [fabric/transfer.py] calls

    Python's standard library, written after its source: [join] with one
    component, [basename], [dirname]. *)

Module Posixpath.

Definition is_sep (c : Ascii.ascii) : bool := Ascii.eqb c "/"%char.

(** [b.startswith('/')] *)
Definition startswith_sep (b : string) : bool :=
  match b with
  | String c _ => is_sep c
  | EmptyString => false
  end.

(** [a.endswith('/')] *)
Fixpoint endswith_sep (a : string) : bool :=
  match a with
  | EmptyString => false
  | String c EmptyString => is_sep c
  | String _ a' => endswith_sep a'
  end.

(** [posixpath.join(a, b)] *)
Definition join (a b : string) : string :=
  if startswith_sep b then b
  else if String.eqb a "" || endswith_sep a then (a ++ b)%string
  else (a ++ "/" ++ b)%string.

(** [(p[:i], p[i:])] for [i = p.rfind('/') + 1]. *)
Fixpoint cut (p : string) : string * string :=
  match p with
  | EmptyString => (EmptyString, EmptyString)
  | String c p' =>
      match cut p' with
      | (EmptyString, _) =>
          if is_sep c then (String c EmptyString, p') else (EmptyString, p)
      | (hd, tl) => (String c hd, tl)
      end
  end.

(** [posixpath.basename(p)] *)
Definition basename (p : string) : string := (cut p).2.

(** [s == '/' * len(s)] *)
Fixpoint all_sep (s : string) : bool :=
  match s with
  | EmptyString => true
  | String c s' => is_sep c && all_sep s'
  end.

(** [s.rstrip('/')] *)
Fixpoint rstrip_sep (s : string) : string :=
  match s with
  | EmptyString => EmptyString
  | String c s' =>
      match rstrip_sep s' with
      | EmptyString => if is_sep c then EmptyString else String c EmptyString
      | r => String c r
      end
  end.

(** [posixpath.dirname(p)] *)
Definition dirname (p : string) : string :=
  let head := (cut p).1 in
  if negb (String.eqb head "") && negb (all_sep head)
  then rstrip_sep head
  else head.

End Posixpath.

(** ** [fabric/transfer.py] *)

Module Transfer.

(** Exceptions of this module: [OSError] with its message, the exceptions
    of the object model, and whatever the SFTP client or the operating
    system raise. *)
Inductive failure : Type :=
| OSError (msg : string)
| PyError (e : exn)
| Foreign (name : string).

Inductive res (A : Type) : Type :=
| Done (a : A)
| Fail (e : failure)
| Beyond.   (* a format string or a value outside the modelled fragment *)

Arguments Done {A} a.
Arguments Fail {A} e.
Arguments Beyond {A}.

(** *** [str.format] with keyword arguments only

    The fragment modelled: literal text, the escapes [{{] and [}}], and
    replacement fields that are a bare name, index or empty.  A field with a
    conversion, a format spec, an attribute or an item access is outside the
    fragment. *)

Inductive fstate : Type :=
| InText
| AfterOpen
| InField (name : string)
| AfterClose.

(** Characters that start a conversion, a spec, an attribute or item access,
    or a nested field. *)
Definition special (c : Ascii.ascii) : bool :=
  Ascii.eqb c "!"%char || Ascii.eqb c ":"%char || Ascii.eqb c "."%char || Ascii.eqb c "["%char
  || Ascii.eqb c "{"%char.

Definition is_digit (c : Ascii.ascii) : bool :=
  (48 <=? Ascii.nat_of_ascii c)%nat && (Ascii.nat_of_ascii c <=? 57)%nat.

Fixpoint all_digits (s : string) : bool :=
  match s with
  | EmptyString => true
  | String c s' => is_digit c && all_digits s'
  end.

(** The value of the field [name]: an empty or numeric name is a positional
    index, and there are no positional arguments; any other name is looked
    up among the keywords. *)
Definition field (kw : gmap string string) (name : string) : res string :=
  if all_digits name then
    if (String.length name <=? 18)%nat
    then Fail (PyError IndexError)
    else Beyond
  else
    match kw !! name with
    | Some s => Done s
    | None => Fail (PyError (KeyError name))
    end.

Definition prepend (c : Ascii.ascii) (r : res string) : res string :=
  match r with
  | Done s => Done (String c s)
  | Fail e => Fail e
  | Beyond => Beyond
  end.

Fixpoint format_from (kw : gmap string string) (st : fstate) (s : string)
    : res string :=
  match s with
  | EmptyString =>
      match st with
      | InText => Done EmptyString
      | AfterOpen =>
          Fail (PyError (ValueError
                  [Lit "Single '{' encountered in format string"]))
      | InField _ =>
          Fail (PyError (ValueError
                  [Lit "expected '}' before end of string"]))
      | AfterClose =>
          Fail (PyError (ValueError
                  [Lit "Single '}' encountered in format string"]))
      end
  | String c s' =>
      match st with
      | InText =>
          if Ascii.eqb c "{"%char then format_from kw AfterOpen s'
          else if Ascii.eqb c "}"%char then format_from kw AfterClose s'
          else prepend c (format_from kw InText s')
      | AfterOpen =>
          if Ascii.eqb c "{"%char then prepend c (format_from kw InText s')
          else if Ascii.eqb c "}"%char then
            match field kw EmptyString with
            | Done v =>
                match format_from kw InText s' with
                | Done r => Done (v ++ r)%string
                | o => o
                end
            | o => o
            end
          else if special c then Beyond
          else format_from kw (InField (String c EmptyString)) s'
      | InField name =>
          if Ascii.eqb c "}"%char then
            match field kw name with
            | Done v =>
                match format_from kw InText s' with
                | Done r => Done (v ++ r)%string
                | o => o
                end
            | o => o
            end
          else if special c then Beyond
          else format_from kw (InField (name ++ String c EmptyString)) s'
      | AfterClose =>
          if Ascii.eqb c "}"%char then prepend c (format_from kw InText s')
          else Fail (PyError (ValueError
                       [Lit "Single '}' encountered in format string"]))
      end
  end.

(** [template.format( **kw)] *)
Definition format (kw : gmap string string) (template : string) : res string :=
  format_from kw InText template.

(** [str(v)] of a connection attribute; the text of a container is outside
    the model. *)
Definition str_of (v : value) : res string :=
  match v with
  | VNone => Done "None"
  | VBool true => Done "True"
  | VBool false => Done "False"
  | VInt n => Done (pretty n)
  | VStr s => Done s
  | VRef _ => Beyond
  end.

Section WithWorld.
(* the state of the local file system and of the remote session; file-like
   objects; connections *)
Context {W F C : Type}.

Definition IO (A : Type) : Type := W -> res A * W.

Definition io_ret {A} (a : A) : IO A := fun w => (Done a, w).

Definition io_bind {A B} (m : IO A) (k : A -> IO B) : IO B :=
  fun w =>
    match m w with
    | (Done a, w') => k a w'
    | (Fail e, w') => (Fail e, w')
    | (Beyond, w') => (Beyond, w')
    end.

Definition io_fail {A} (e : failure) : IO A := fun w => (Fail e, w).

(** A pure computation inside [IO]. *)
Definition io_lift {A} (r : res A) : IO A := fun w => (r, w).

(** [with ... as f: body]: [cleanup] runs when the body is left, also by an
    exception; an exception of [cleanup] replaces the body's. *)
Definition finally {A} (body : IO A) (cleanup : IO unit) : IO A :=
  fun w =>
    match body w with
    | (Beyond, w1) => (Beyond, w1)
    | (r, w1) =>
        match cleanup w1 with
        | (Done _, w2) => (r, w2)
        | (Fail e, w2) => (Fail e, w2)
        | (Beyond, w2) => (Beyond, w2)
        end
    end.

(** The operations of the connection, of its SFTP client and of the [os]
    module that [Transfer] uses. *)
Record env : Type := {
  connection : C;
  connection_host : value;
  connection_user : value;
  connection_port : value;
  connection_sftp : IO unit;
  sftp_getcwd : IO (option string);
  sftp_getfo : string -> F -> IO unit;
  sftp_putfo : F -> string -> IO unit;
  sftp_stat_mode : string -> IO Z;
  sftp_chmod : string -> Z -> IO unit;
  os_getcwd : IO string;
  os_path_isdir : string -> IO bool;
  os_path_isfile : string -> IO bool;
  os_path_join : string -> string -> string;
  os_path_dirname : string -> string;
  os_path_basename : string -> string;
  os_path_expanduser : string -> string;
  os_makedirs : string -> IO unit;
  os_chmod : string -> Z -> IO unit;
  os_stat_mode : string -> IO Z;
  open_wb : string -> IO F;
  open_rb : string -> IO F;
  file_close : F -> IO unit
}.

(** The [local] argument: [None], a path, or a file-like object. *)
Inductive local_arg : Type :=
| LNone
| LPath (s : string)
| LFile (f : F).

(** [class Result]: the attributes set by [__init__]. *)
Record Result : Type := {
  local : local_arg;
  orig_local : local_arg;
  remote : string;
  orig_remote : string;
  result_connection : C
}.

Variable E : env.

Local Notation "'do' x '<-' m ';' k" := (io_bind m (fun x => k))
  (at level 10, x name, m at level 100, k at level 200).
Local Notation "m ';;;' k" := (io_bind m (fun _ => k))
  (at level 100, k at level 200, right associativity).

(** [Transfer.get(self, remote, local=None, preserve_mode=True)]; a
    file-like object counts as true in [if not local]. *)
Definition get (remote_ : string) (local_ : local_arg) (preserve_mode : bool)
    : IO Result :=
  do _sftp <- connection_sftp E;
  do cwd <- sftp_getcwd E;
  let remote_path := Posixpath.join (default "" cwd) remote_ in
  let remote_basename := Posixpath.basename remote_path in
  let remote_dirname := Posixpath.dirname remote_path in
  do local1 <-
    match local_ with
    | LNone | LPath EmptyString =>
        do d <- os_getcwd E; io_ret (LPath d)
    | _ => io_ret local_
    end;
  do local2 <-
    match local1 with
    | LPath template =>
        do host <- io_lift (str_of (connection_host E));
        do user <- io_lift (str_of (connection_user E));
        do port <- io_lift (str_of (connection_port E));
        do path0 <- io_lift (format
                      {[ "host" := host; "user" := user; "port" := port;
                         "basename" := remote_basename;
                         "dirname" := remote_dirname ]} template);
        do isdir <- os_path_isdir E path0;
        let path := if isdir then os_path_join E path0 remote_basename
                    else path0 in
        let local_dir := os_path_dirname E path in
        (if negb (String.eqb local_dir "") then os_makedirs E local_dir
         else io_ret tt) ;;;
        (do local_file <- open_wb E path;
         finally (sftp_getfo E remote_path local_file)
                 (file_close E local_file)) ;;;
        (if preserve_mode then
           do remote_mode <- sftp_stat_mode E remote_path;
           os_chmod E path remote_mode
         else io_ret tt) ;;;
        io_ret (LPath path)
    | LFile f => sftp_getfo E remote_path f ;;; io_ret local1
    | LNone => io_ret local1
    end;
  io_ret {| local := local2; orig_local := local2; remote := remote_path;
            orig_remote := remote_; result_connection := connection E |}.

(** [Transfer.put(self, local, remote=None, preserve_mode=True)]; [local] is
    a path or a file-like object. *)
Definition put (local_ : string + F) (remote_ : option string)
    (preserve_mode : bool) : IO Result :=
  do _sftp <- connection_sftp E;
  match local_ with
  | inl s =>
      let local_path := os_path_expanduser E s in
      let local_basename := os_path_basename E local_path in
      let orig_local_ := local_path in
      do isfile <- os_path_isfile E local_path;
      if negb isfile then
        io_fail (OSError ("Local file '" ++ local_path ++ "' does not exist"))
      else
        let remote1 :=
          match remote_ with
          | None | Some EmptyString => local_basename
          | Some r => r
          end in
        do cwd <- sftp_getcwd E;
        let remote_path := Posixpath.join (default "" cwd) remote1 in
        (do local_file <- open_rb E local_path;
         finally (sftp_putfo E local_file remote_path)
                 (file_close E local_file)) ;;;
        (if preserve_mode then
           do local_mode <- os_stat_mode E local_path;
           sftp_chmod E remote_path local_mode
         else io_ret tt) ;;;
        io_ret {| local := LPath local_path; orig_local := LPath orig_local_;
                  remote := remote_path; orig_remote := remote1;
                  result_connection := connection E |}
  | inr f =>
      match remote_ with
      | None =>
          io_fail (PyError (ValueError
            [Lit "'remote' must be specified when 'local' is a file-like object"]))
      | Some r =>
          do cwd <- sftp_getcwd E;
          let remote_path := Posixpath.join (default "" cwd) r in
          sftp_putfo E f remote_path ;;;
          io_ret {| local := LNone; orig_local := LFile f;
                    remote := remote_path; orig_remote := r;
                    result_connection := connection E |}
      end
  end.

End WithWorld.
End Transfer.

(** ** Predicates used in the statements *)

(** Every step of the computations below only extends the store or
    overwrites the one object [nl]: the objects other than [nl] that exist
    in [h] are the same in [h']. *)
Definition frame (nl : loc) (h h' : heap) : Prop :=
  length h <= length h' /\
  forall l, l < length h -> l <> nl -> h' !! l = h !! l.

(** A host specifier the normalizer accepts: a string, or a reference to a
    dict object of the store. *)
Definition is_spec (h : heap) (v : value) : bool :=
  match v with
  | VStr _ => true
  | VRef l => match h !! l with Some (ODict _) => true | _ => false end
  | _ => false
  end.

(** No dangling reference. *)
Definition bound (h : heap) (v : value) : bool :=
  match v with
  | VRef l => bool_decide (l < length h)
  | _ => true
  end.

(** What the normalizer makes of one accepted specifier [v], given the store
    [h] before and [h'] after: a string becomes a reference to a new dict
    object holding exactly the key [host]; a dict reference is the same
    reference, to the same contents. *)
Definition normalized_as (h h' : heap) (v r : value) : Prop :=
  match v with
  | VStr s => exists d, r = VRef d /\ length h <= d /\
                        h' !! d = Some (ODict {[ "host" := VStr s ]})
  | VRef l => r = VRef l /\ h' !! l = h !! l
  | _ => False
  end.

(** Iterating [hosts] yields the elements of [xs], now and in every later
    store of a run that builds its result in [nl]. *)
Definition iterates (hosts : value) (nl : loc) (h : heap) (xs : list value)
    : Prop :=
  forall h' i, frame nl h h' -> iter_next hosts i h' = (Ok (xs !! i), h').



(** The computation returned a value. *)
Definition is_ok {A} (o : outcome A) : bool :=
  match o with Ok _ => true | _ => false end.

(** ** Sample stores *)

(** A host list mixing strings and a dict, with a repeated string. *)
Definition mixed_store : heap :=
  [ OList [VStr "a"; VRef 1; VStr "a"];
    ODict {[ "host" := VStr "b"; "port" := VInt 22 ]} ].

(** A host list whose second element is an integer. *)
Definition bad_store : heap :=
  [ OList [VStr "a"; VInt 5; VNone] ].

(** A function object and an empty list. *)
Definition func_store : heap :=
  [ OInst KFunction ∅; OList [] ].

(** A CLI host list [["y"]] and a task-level host list [["x"]]. *)
Definition override_store : heap :=
  [ OList [VStr "y"]; OList [VStr "x"] ].

(** A store with a task, the positional and keyword arguments of a call, the
    call, the record [{host: "h1"}], and an empty host list. *)
Definition call_store : heap :=
  [ OInst KInvokeTask {[ "body" := VNone ]};
    OTuple [VInt 1];
    ODict ∅;
    OInst KCall {[ "task" := VRef 0; "args" := VRef 1; "kwargs" := VRef 2;
                   "called_as" := VNone ]};
    ODict {[ "host" := VStr "h1" ]};
    OList [] ].

(** A host list given as a tuple. *)
Definition tuple_store : heap :=
  [ OTuple [VStr "a"; VRef 1];
    ODict {[ "host" := VStr "b" ]} ].

(** A function object and the host list [["web1"]]. *)
Definition hosts_store : heap :=
  [ OInst KFunction ∅; OList [VStr "web1"] ].

(** A task, to be used as pre-task, and a function object. *)
Definition pre_task_store : heap :=
  [ OInst KInvokeTask {[ "body" := VNone ]}; OInst KFunction ∅ ].

(** Two ConnectionCalls: one for the record [{host: "web1"}], one for a
    record without [host]. *)
Definition repr_store : heap :=
  [ ODict {[ "host" := VStr "web1" ]};
    OInst KConnectionCall {[ "init_kwargs" := VRef 0 ]};
    ODict {[ "user" := VStr "bob" ]};
    OInst KConnectionCall {[ "init_kwargs" := VRef 2 ]} ].

(** A stand-in for [Call.__repr__]. *)
Definition sample_Call_repr (self : value) : M string :=
  ret "<Call 'deploy', args: (), kwargs: {}>".

(** *** A recording world for [Transfer]

    The world is the list of the operations performed so far; the answers
    come from a fixed description of the two file systems. *)

Inductive event : Type :=
| EvSftp
| EvGetcwd
| EvGetfo (remote : string)
| EvPutfo (remote : string)
| EvSftpStat (path : string)
| EvSftpChmod (path : string) (mode : Z)
| EvOsGetcwd
| EvIsdir (path : string)
| EvIsfile (path : string)
| EvMakedirs (path : string)
| EvOsChmod (path : string) (mode : Z)
| EvOsStat (path : string)
| EvOpenW (path : string)
| EvOpenR (path : string)
| EvClose.

Record fake : Type := {
  fake_files : list string;       (* local regular files *)
  fake_dirs : list string;        (* local directories *)
  fake_remote_cwd : option string;
  fake_getfo_fails : bool
}.

Definition record {A} (ev : event) (r : Transfer.res A)
    : Transfer.IO (W := list event) A :=
  fun w => (r, w ++ [ev]).

Definition recording_env (k : fake) : @Transfer.env (list event) nat unit := {|
  Transfer.connection := tt;
  Transfer.connection_host := VStr "web1";
  Transfer.connection_user := VStr "deploy";
  Transfer.connection_port := VInt 22;
  Transfer.connection_sftp := record EvSftp (Transfer.Done tt);
  Transfer.sftp_getcwd := record EvGetcwd (Transfer.Done (fake_remote_cwd k));
  Transfer.sftp_getfo := fun r _ =>
    record (EvGetfo r)
      (if fake_getfo_fails k then Transfer.Fail (Transfer.Foreign "IOError")
       else Transfer.Done tt);
  Transfer.sftp_putfo := fun _ r => record (EvPutfo r) (Transfer.Done tt);
  Transfer.sftp_stat_mode := fun p => record (EvSftpStat p) (Transfer.Done 420%Z);
  Transfer.sftp_chmod := fun p m => record (EvSftpChmod p m) (Transfer.Done tt);
  Transfer.os_getcwd := record EvOsGetcwd (Transfer.Done "/work");
  Transfer.os_path_isdir := fun p =>
    record (EvIsdir p) (Transfer.Done (bool_decide (p ∈ fake_dirs k)));
  Transfer.os_path_isfile := fun p =>
    record (EvIsfile p) (Transfer.Done (bool_decide (p ∈ fake_files k)));
  Transfer.os_path_join := Posixpath.join;
  Transfer.os_path_dirname := Posixpath.dirname;
  Transfer.os_path_basename := Posixpath.basename;
  Transfer.os_path_expanduser := fun p => p;
  Transfer.os_makedirs := fun p => record (EvMakedirs p) (Transfer.Done tt);
  Transfer.os_chmod := fun p m => record (EvOsChmod p m) (Transfer.Done tt);
  Transfer.os_stat_mode := fun p => record (EvOsStat p) (Transfer.Done 420%Z);
  Transfer.open_wb := fun p => record (EvOpenW p) (Transfer.Done 0);
  Transfer.open_rb := fun p => record (EvOpenR p) (Transfer.Done 0);
  Transfer.file_close := fun _ => record EvClose (Transfer.Done tt)
|}.

(** A local file [/srv/app.tgz], no local directory known, remote working
    directory [/home/deploy]. *)
Definition plain_fake : fake :=
  {| fake_files := ["/srv/app.tgz"]; fake_dirs := [];
     fake_remote_cwd := Some "/home/deploy"; fake_getfo_fails := false |}.


(** The same as [plain_fake], with downloads failing. *)
Definition failing_fake : fake :=
  {| fake_files := ["/srv/app.tgz"]; fake_dirs := [];
     fake_remote_cwd := Some "/home/deploy"; fake_getfo_fails := true |}.



(** ** Reasoning about computations *)

Lemma bind_ok {A B} (m : M A) (k : A -> M B) h a h' :
  m h = (Ok a, h') -> bind m k h = k a h'.
Proof. intros E. unfold bind. now rewrite E. Qed.

Lemma bind_raise {A B} (m : M A) (k : A -> M B) h e h' :
  m h = (Raise e, h') -> bind m k h = (Raise e, h').
Proof. intros E. unfold bind. now rewrite E. Qed.

Lemma bind_stuck {A B} (m : M A) (k : A -> M B) h h' :
  m h = (Stuck, h') -> bind m k h = (Stuck, h').
Proof. intros E. unfold bind. now rewrite E. Qed.

Lemma bind_ret_l {A B} (a : A) (k : A -> M B) h : bind (ret a) k h = k a h.
Proof. reflexivity. Qed.

Lemma bind_assoc {A B C} (m : M A) (k1 : A -> M B) (k2 : B -> M C) h :
  bind (bind m k1) k2 h = bind m (fun a => bind (k1 a) k2) h.
Proof. unfold bind. now destruct (m h) as [[]]. Qed.

Lemma bind_ext {A B} (m1 m2 : M A) (k : A -> M B) h :
  m1 h = m2 h -> bind m1 k h = bind m2 k h.
Proof. intros E. unfold bind. now rewrite E. Qed.

Lemma deref_ok l o (h : heap) : h !! l = Some o -> deref l h = (Ok o, h).
Proof. intros E. unfold deref. now rewrite E. Qed.

Lemma lookup_alloc_new (h : heap) o : (h ++ [o]) !! length h = Some o.
Proof. rewrite lookup_app_r by lia. now rewrite Nat.sub_diag. Qed.

Lemma lookup_alloc_old (h : heap) o l :
  l < length h -> (h ++ [o]) !! l = h !! l.
Proof. intros Hl. now apply lookup_app_l. Qed.

Lemma lookup_store_eq (h : heap) l o :
  l < length h -> <[l := o]> h !! l = Some o.
Proof. intros Hl. now apply list_lookup_insert_eq. Qed.

Lemma lookup_store_ne (h : heap) l l' o :
  l <> l' -> <[l := o]> h !! l' = h !! l'.
Proof. intros Hne. now apply list_lookup_insert_ne. Qed.

Lemma list_append_ok (h : heap) l xs v :
  h !! l = Some (OList xs) ->
  list_append l v h = (Ok tt, <[l := OList (xs ++ [v])]> h).
Proof.
  intros E. unfold list_append. rewrite (bind_ok _ _ _ _ _ (deref_ok _ _ _ E)).
  reflexivity.
Qed.

Lemma frame_refl nl h : frame nl h h.
Proof. split; [lia | auto]. Qed.

Lemma frame_trans nl h1 h2 h3 :
  frame nl h1 h2 -> frame nl h2 h3 -> frame nl h1 h3.
Proof.
  intros [L1 F1] [L2 F2]. split; [lia |].
  intros l Hl Hne. rewrite F2 by (auto; lia). now apply F1.
Qed.

Lemma frame_alloc nl h o : frame nl h (h ++ [o]).
Proof.
  split; [rewrite length_app; simpl; lia |].
  intros l Hl _. now apply lookup_alloc_old.
Qed.

Lemma frame_store nl h o : frame nl h (<[nl := o]> h).
Proof.
  split; [rewrite length_insert; lia |].
  intros l _ Hne. apply lookup_store_ne. congruence.
Qed.

Lemma deref_heap l h r h' : deref l h = (r, h') -> h' = h.
Proof. unfold deref. destruct (h !! l); congruence. Qed.

Lemma isinstance_dict_heap v h r h' : isinstance_dict v h = (r, h') -> h' = h.
Proof.
  destruct v; simpl; try (unfold ret; congruence).
  unfold bind, deref. destruct (h !! l) as [[]|]; unfold ret; congruence.
Qed.

Lemma iter_next_heap it i h r h' : iter_next it i h = (r, h') -> h' = h.
Proof.
  destruct it; simpl; try (unfold raise, ret; congruence).
  unfold bind, deref.
  destruct (h !! l) as [[]|]; unfold ret, raise, stuck; congruence.
Qed.

Lemma list_append_frame l v h r h' :
  list_append l v h = (r, h') -> frame l h h'.
Proof.
  unfold list_append, bind, deref.
  destruct (h !! l) as [[]|]; unfold store, raise;
    intros [= _ <-]; auto using frame_refl, frame_store.
Qed.

(** ** The host normalizer *)

Section Normalizer.
Import Executor.

Lemma normalize_loop_frame fuel : forall hosts nl i h r h',
  normalize_loop fuel hosts nl i h = (r, h') -> frame nl h h'.
Proof.
  induction fuel as [|fuel IH]; intros hosts nl i h r h'; simpl.
  - intros [= _ <-]. apply frame_refl.
  - unfold bind at 1. destruct (iter_next hosts i h) as [[nxt| |] h1] eqn:E1;
      pose proof (iter_next_heap _ _ _ _ _ E1) as ->;
      try (intros [= _ <-]; apply frame_refl).
    destruct nxt as [host|]; [| intros [= _ <-]; apply frame_refl].
    destruct (isinstance_str host).
    + unfold bind at 1, alloc at 1. unfold bind at 1.
      destruct (list_append nl (VRef (length h)) _) as [[[]| |] h2] eqn:E2;
        pose proof (list_append_frame _ _ _ _ _ E2) as F2.
      * intros E3. apply IH in E3.
        eauto using frame_trans, frame_alloc.
      * intros [= _ <-]. eauto using frame_trans, frame_alloc.
      * intros [= _ <-]. eauto using frame_trans, frame_alloc.
    + unfold bind at 1.
      destruct (isinstance_dict host h) as [[b| |] h1] eqn:E2;
        pose proof (isinstance_dict_heap _ _ _ _ E2) as ->;
        try (intros [= _ <-]; apply frame_refl).
      destruct b; [| intros [= _ <-]; apply frame_refl].
      unfold bind at 1.
      destruct (list_append nl host h) as [[[]| |] h2] eqn:E3;
        pose proof (list_append_frame _ _ _ _ _ E3) as F3.
      * intros E4. apply IH in E4. eauto using frame_trans.
      * now intros [= _ <-].
      * now intros [= _ <-].
Qed.

Lemma is_spec_frame nl h h' v :
  frame nl h h' -> (forall xs, h !! nl <> Some (ODict xs)) ->
  is_spec h v = true -> is_spec h' v = true.
Proof.
  intros [_ F] Hnl. destruct v as [| | | |l]; simpl; auto.
  destruct (h !! l) as [[]|] eqn:E; try discriminate. intros _.
  rewrite F, E; auto.
  - apply lookup_lt_Some in E. exact E.
  - intros ->. now apply (Hnl d).
Qed.

Lemma normalized_as_rebase nl h h2 h' rest out :
  frame nl h h2 -> (forall xs, h !! nl <> Some (ODict xs)) ->
  Forall (fun v => is_spec h v = true) rest ->
  Forall2 (normalized_as h2 h') rest out ->
  Forall2 (normalized_as h h') rest out.
Proof.
  intros [L F] Hnl Hs Hrel. induction Hrel as [|x y rest out Hxy Hrel IH].
  - constructor.
  - apply Forall_cons in Hs as [Hx Hs]. constructor; auto.
    destruct x as [| | |s|l]; simpl in *; auto.
    + destruct Hxy as (d & -> & Hd & Hl). exists d. repeat split; auto. lia.
    + destruct Hxy as [-> Hl]. split; auto. rewrite Hl.
      destruct (h !! l) as [[]|] eqn:E; try discriminate.
      rewrite <- E. apply F.
      * eapply lookup_lt_Some; eauto.
      * intros ->. now apply (Hnl d).
Qed.

(** The loop over a prefix [pre] of accepted specifiers: it consumes one unit
    of fuel per element and leaves the loop at position [length pre] in a
    store where the list under construction has grown by the records [out]. *)
Lemma normalize_loop_prefix pre : forall done acc h hosts nl post,
  hosts <> nl ->
  h !! hosts = Some (OList (done ++ pre ++ post)) ->
  h !! nl = Some (OList acc) ->
  Forall (fun v => is_spec h v = true) pre ->
  exists h1 out,
    (forall fuel,
       normalize_loop (length pre + fuel) (VRef hosts) nl (length done) h =
       normalize_loop fuel (VRef hosts) nl (length done + length pre) h1) /\
    h1 !! nl = Some (OList (acc ++ out)) /\
    frame nl h h1 /\
    Forall2 (normalized_as h h1) pre out.
Proof.
  induction pre as [|v pre IH]; intros done acc h hosts nl post Hne Hh Hn Hs.
  - exists h, []. simpl. rewrite Nat.add_0_r, app_nil_r.
    repeat split; auto.
  - pose proof Hs as Hs0. apply Forall_cons in Hs as [Hv Hs].
    change ((v :: pre) ++ post) with (v :: (pre ++ post)) in Hh.
    assert (Hnext : iter_next (VRef hosts) (length done) h = (Ok (Some v), h)).
    { unfold iter_next. rewrite (bind_ok _ _ _ _ _ (deref_ok _ _ _ Hh)).
      unfold ret. now rewrite list_lookup_middle. }
    assert (Hlh : hosts < length h) by (eapply lookup_lt_Some; eauto).
    assert (Hln : nl < length h) by (eapply lookup_lt_Some; eauto).
    assert (Hnd : forall xs, h !! nl <> Some (ODict xs)) by (intros xs; congruence).
    destruct v as [| | |s|l]; simpl in Hv; try discriminate.
    + (* a string: a fresh single-key record is appended *)
      set (h1 := h ++ [ODict {[ "host" := VStr s ]}]).
      assert (Hn1 : h1 !! nl = Some (OList acc))
        by (unfold h1; rewrite lookup_alloc_old; auto).
      set (h2 := <[nl := OList (acc ++ [VRef (length h)])]> h1).
      assert (F12 : frame nl h h2).
      { eapply frame_trans; [apply frame_alloc | apply frame_store]. }
      destruct (IH (done ++ [VStr s]) (acc ++ [VRef (length h)]) h2 hosts nl post)
        as (h' & out & Hrun & Hout & F & Hrel); auto.
      * destruct F12 as [_ F12]. rewrite F12; auto.
        now rewrite <- app_assoc.
      * unfold h2. apply lookup_store_eq. unfold h1. rewrite length_app. lia.
      * eapply Forall_impl; [exact Hs |]. intros x. simpl.
        now apply (is_spec_frame nl).
      * exists h', (VRef (length h) :: out).
        rewrite <- app_assoc in Hout. simpl in Hout.
        pose proof (frame_trans _ _ _ _ F12 F) as F'.
        split; [| split; [exact Hout | split; [exact F' |]]].
        -- intros fuel. cbn [length Nat.add normalize_loop].
           rewrite (bind_ok _ _ _ _ _ Hnext). cbn [isinstance_str].
           rewrite (bind_ok _ _ h (length h) h1) by reflexivity.
           rewrite (bind_ok _ _ _ _ _ (list_append_ok _ _ _ (VRef (length h)) Hn1)).
           fold h2. rewrite length_app, Nat.add_1_r in Hrun.
           rewrite Hrun. f_equal. lia.
        -- constructor; [| eapply (normalized_as_rebase nl h h2); eauto].
           simpl. exists (length h). repeat split; auto.
           destruct F as [_ F]. rewrite F.
           ++ unfold h2. rewrite lookup_store_ne by lia.
              apply lookup_alloc_new.
           ++ unfold h2, h1. rewrite length_insert, length_app. simpl. lia.
           ++ lia.
    + (* a dict: the same reference is appended *)
      destruct (h !! l) as [[]|] eqn:El; try discriminate.
      assert (Hd : isinstance_dict (VRef l) h = (Ok true, h)).
      { unfold isinstance_dict. now rewrite (bind_ok _ _ _ _ _ (deref_ok _ _ _ El)). }
      set (h2 := <[nl := OList (acc ++ [VRef l])]> h).
      assert (F12 : frame nl h h2) by apply frame_store.
      destruct (IH (done ++ [VRef l]) (acc ++ [VRef l]) h2 hosts nl post)
        as (h' & out & Hrun & Hout & F & Hrel); auto.
      * destruct F12 as [_ F12]. rewrite F12; auto.
        now rewrite <- app_assoc.
      * unfold h2. now apply lookup_store_eq.
      * eapply Forall_impl; [exact Hs |]. intros x. simpl.
        now apply (is_spec_frame nl).
      * exists h', (VRef l :: out).
        rewrite <- app_assoc in Hout. simpl in Hout.
        pose proof (frame_trans _ _ _ _ F12 F) as F'.
        split; [| split; [exact Hout | split; [exact F' |]]].
        -- intros fuel. cbn [length Nat.add normalize_loop].
           rewrite (bind_ok _ _ _ _ _ Hnext). cbn [isinstance_str].
           rewrite (bind_ok _ _ _ _ _ Hd).
           rewrite (bind_ok _ _ _ _ _ (list_append_ok _ _ _ (VRef l) Hn)).
           fold h2. rewrite length_app, Nat.add_1_r in Hrun.
           rewrite Hrun. f_equal. lia.
        -- constructor; [| eapply (normalized_as_rebase nl h h2); eauto].
           simpl. split; auto. apply F'.
           ++ eapply lookup_lt_Some; eauto.
           ++ congruence.
Qed.

(** The loop at the end of the list stops. *)
Lemma normalize_loop_stop fuel hosts nl xs h :
  h !! hosts = Some (OList xs) ->
  normalize_loop (S fuel) (VRef hosts) nl (length xs) h = (Ok tt, h).
Proof.
  intros Hh. cbn [normalize_loop].
  assert (Hnext : iter_next (VRef hosts) (length xs) h = (Ok None, h)).
  { unfold iter_next. rewrite (bind_ok _ _ _ _ _ (deref_ok _ _ _ Hh)).
    unfold ret. rewrite lookup_ge_None_2; auto. }
  now rewrite (bind_ok _ _ _ _ _ Hnext).
Qed.

(** The loop at an element that is neither a string nor a dict raises. *)
Lemma normalize_loop_reject fuel hosts nl pre bad post acc h0 h :
  frame nl h0 h ->
  h !! hosts = Some (OList (pre ++ bad :: post)) ->
  h !! nl = Some (OList acc) ->
  bound h0 bad = true -> is_spec h0 bad = false ->
  normalize_loop (S fuel) (VRef hosts) nl (length pre) h =
    (Raise (ValueError [Lit "Invalid host specification: "; Fmt bad]), h).
Proof.
  intros [L F] Hh Hn Hb Hs. cbn [normalize_loop].
  assert (Hnext : iter_next (VRef hosts) (length pre) h = (Ok (Some bad), h)).
  { unfold iter_next. rewrite (bind_ok _ _ _ _ _ (deref_ok _ _ _ Hh)).
    unfold ret. now rewrite list_lookup_middle. }
  rewrite (bind_ok _ _ _ _ _ Hnext).
  destruct bad as [| | |s|l]; simpl in Hs; try discriminate; try reflexivity.
  cbn [isinstance_str]. simpl in Hb. apply bool_decide_eq_true in Hb.
  assert (Hd : exists o, h !! l = Some o /\ forall d, o <> ODict d).
  { destruct (decide (l = nl)) as [->|Hne].
    - eexists. split; [exact Hn | congruence].
    - rewrite F by auto.
      destruct (lookup_lt_is_Some_2 h0 l Hb) as [o Ho]. rewrite Ho in *.
      exists o. split; auto. intros d ->. discriminate. }
  destruct Hd as (o & Ho & Hnd).
  assert (Hdict : isinstance_dict (VRef l) h = (Ok false, h)).
  { unfold isinstance_dict. rewrite (bind_ok _ _ _ _ _ (deref_ok _ _ _ Ho)).
    destruct o; try reflexivity. now destruct (Hnd d). }
  now rewrite (bind_ok _ _ _ _ _ Hdict).
Qed.

End Normalizer.

(** ** Properties of [Executor.normalize_hosts] *)

Section NormalizeHosts.
Import Executor.

(** The run of [normalize_hosts] over a list whose prefix [pre] is accepted:
    the loop is entered in the store extended by the empty result list, and
    reaches position [length pre] with the records of [pre] appended. *)
Lemma normalize_hosts_prefix h hosts pre post :
  h !! hosts = Some (OList (pre ++ post)) ->
  Forall (fun v => is_spec h v = true) pre ->
  exists h1 out,
    (forall fuel,
       normalize_loop (length pre + fuel) (VRef hosts) (length h) 0
         (h ++ [OList []]) =
       normalize_loop fuel (VRef hosts) (length h) (length pre) h1) /\
    h1 !! length h = Some (OList out) /\
    h1 !! hosts = Some (OList (pre ++ post)) /\
    frame (length h) h h1 /\
    Forall2 (normalized_as h h1) pre out.
Proof.
  intros Hh Hs.
  assert (Hlh : hosts < length h) by (eapply lookup_lt_Some; eauto).
  assert (Hnone : forall xs, h !! length h <> Some (ODict xs)).
  { intros xs. rewrite lookup_ge_None_2; [discriminate | lia]. }
  pose proof (frame_alloc (length h) h (OList [])) as F0.
  destruct (normalize_loop_prefix pre [] [] (h ++ [OList []]) hosts (length h) post)
    as (h1 & out & Hrun & Hout & F & Hrel).
  - lia.
  - rewrite lookup_alloc_old; auto.
  - apply lookup_alloc_new.
  - eapply Forall_impl; [exact Hs |]. intros x. simpl.
    now apply (is_spec_frame (length h) h).
  - exists h1, out. pose proof (frame_trans _ _ _ _ F0 F) as F'.
    split; [exact Hrun |]. split; [exact Hout |].
    split; [| split; [exact F' |]].
    + destruct F' as [_ F']. rewrite F'; auto. lia.
    + apply (normalized_as_rebase (length h) h (h ++ [OList []])); auto.
Qed.

(** The run of [normalize_hosts] over a list of accepted specifiers: the
    result is a new list object, the store is otherwise only extended, and
    the records are those of the input, in order. *)
Lemma normalize_hosts_run (h : heap) (hosts : loc) (xs : list value)
    (fuel : nat) :
  h !! hosts = Some (OList xs) ->
  Forall (fun v => is_spec h v = true) xs ->
  length xs < fuel ->
  exists ys h',
    normalize_hosts fuel (VRef hosts) h = (Ok (VRef (length h)), h') /\
    h' !! length h = Some (OList ys) /\
    frame (length h) h h' /\
    Forall2 (normalized_as h h') xs ys.
Proof.
  intros Hh Hs Hf.
  rewrite <- (app_nil_r xs) in Hh.
  destruct (normalize_hosts_prefix h hosts xs [] Hh Hs)
    as (h1 & out & Hrun & Hout & Hh1 & F & Hrel).
  exists out, h1.
  rewrite app_nil_r in Hh1.
  split; [| split; [exact Hout | split; [exact F | exact Hrel]]].
  unfold normalize_hosts, alloc.
  rewrite (bind_ok _ _ h (length h) (h ++ [OList []])) by reflexivity.
  replace fuel with (length xs + S (fuel - length xs - 1)) by lia.
  unfold bind. now rewrite Hrun, (normalize_loop_stop _ _ _ _ _ Hh1).
Qed.

(** C1. For a host-specifier list whose elements are strings or dicts,
    [normalize_hosts] returns a list of the same length, related to the input
    position by position: a string [s] has become a record [{host: s}], a
    dict is the same object with the same contents.  Nothing is merged, so
    equal specifiers give one record each. *)
Theorem normalize_hosts_records (h : heap) (hosts : loc) (xs : list value)
    (fuel : nat) :
  h !! hosts = Some (OList xs) ->
  Forall (fun v => is_spec h v = true) xs ->
  length xs < fuel ->
  exists out ys h',
    normalize_hosts fuel (VRef hosts) h = (Ok (VRef out), h') /\
    h' !! out = Some (OList ys) /\
    length ys = length xs /\
    Forall2 (normalized_as h h') xs ys.
Proof.
  intros Hh Hs Hf.
  destruct (normalize_hosts_run h hosts xs fuel Hh Hs Hf)
    as (ys & h' & Hrun & Hout & _ & Hrel).
  exists (length h), ys, h'. repeat split; auto.
  symmetry. eapply Forall2_length; eauto.
Qed.

(** C6. On a list of well-formed values, [normalize_hosts] returns normally
    when every element is a string or a dict, and raises [ValueError] with
    the message ["Invalid host specification: {host}"], formatted with the
    first element that is neither, as the outcome of the call itself. *)
Theorem normalize_hosts_value_error (h : heap) (hosts : loc)
    (xs : list value) (fuel : nat) :
  h !! hosts = Some (OList xs) ->
  Forall (fun v => bound h v = true) xs ->
  length xs < fuel ->
  (Forall (fun v => is_spec h v = true) xs ->
   exists out h', normalize_hosts fuel (VRef hosts) h = (Ok out, h')) /\
  (forall pre bad post,
     xs = pre ++ bad :: post ->
     Forall (fun v => is_spec h v = true) pre ->
     is_spec h bad = false ->
     exists h',
       normalize_hosts fuel (VRef hosts) h =
       (Raise (ValueError [Lit "Invalid host specification: "; Fmt bad]), h')).
Proof.
  intros Hh Hb Hf. split.
  - intros Hs.
    destruct (normalize_hosts_run h hosts xs fuel Hh Hs Hf)
      as (ys & h' & Hrun & _).
    eauto.
  - intros pre bad post -> Hs Hbad.
    destruct (normalize_hosts_prefix h hosts pre (bad :: post) Hh Hs)
      as (h1 & out & Hrun & Hout & Hh1 & F & Hrel).
    exists h1.
    assert (Hbb : bound h bad = true).
    { rewrite Forall_app, Forall_cons in Hb. tauto. }
    rewrite length_app in Hf. simpl in Hf.
    unfold normalize_hosts, alloc.
    rewrite (bind_ok _ _ h (length h) (h ++ [OList []])) by reflexivity.
    replace fuel with (length pre + S (fuel - length pre - 1)) by lia.
    unfold bind.
    now rewrite Hrun,
      (normalize_loop_reject _ _ _ _ _ _ _ _ _ F Hh1 Hout Hbb Hbad).
Qed.

(** C8. Whatever the outcome of [normalize_hosts] (a result, an exception,
    or an exhausted budget), the caller's list object holds the same elements
    in the same order afterwards. *)
Theorem normalize_hosts_input_unchanged (h : heap) (hosts : loc)
    (xs : list value) (fuel : nat) (r : outcome value) (h' : heap) :
  h !! hosts = Some (OList xs) ->
  normalize_hosts fuel (VRef hosts) h = (r, h') ->
  h' !! hosts = Some (OList xs).
Proof.
  intros Hh Hrun.
  assert (Hlh : hosts < length h) by (eapply lookup_lt_Some; eauto).
  assert (F : frame (length h) h h').
  { unfold normalize_hosts, alloc in Hrun. unfold bind at 1 in Hrun.
    unfold bind at 1 in Hrun.
    destruct (normalize_loop fuel (VRef hosts) (length h) 0 (h ++ [OList []]))
      as [[[]| |] h2] eqn:E;
      apply normalize_loop_frame in E; injection Hrun as _ <-;
      eauto using frame_trans, frame_alloc. }
  destruct F as [_ F]. rewrite F; auto. lia.
Qed.

End NormalizeHosts.

(** ** Properties of [fabric/tasks.py] *)

Section TasksProperties.
Import Tasks.
Variable lib : library.

Lemma setattr_ok v name x h h' :
  setattr v name x h = (Ok tt, h') ->
  getattr v name h' = (Ok x, h').
Proof.
  destruct v as [| | | |l]; simpl; try (unfold raise; discriminate).
  unfold bind, deref. destruct (h !! l) as [[]|] eqn:E;
    unfold raise, store; try discriminate.
  intros [= <-].
  assert (Hl : l < length h) by (eapply lookup_lt_Some; eauto).
  rewrite list_lookup_insert_eq by exact Hl.
  now rewrite lookup_insert_eq.
Qed.

(** C9. [ConnectionCall(...)] without the keyword [init_kwargs] raises
    [KeyError] before the initializer of [Call] runs; and a construction
    that returns was given the keyword and returns an object whose
    [init_kwargs] attribute is the value given. *)
Theorem ConnectionCall_init_kwargs_mandatory (args : list value)
    (kwargs : gmap string value) (h : heap) :
  (kwargs !! "init_kwargs" = None ->
   ConnectionCall_new lib args kwargs h =
     (Raise (KeyError "init_kwargs"), h ++ [OInst KConnectionCall ∅])) /\
  (forall v h',
     ConnectionCall_new lib args kwargs h = (Ok v, h') ->
     exists init_kwargs,
       kwargs !! "init_kwargs" = Some init_kwargs /\
       getattr v "init_kwargs" h' = (Ok init_kwargs, h')).
Proof.
  split.
  - intros Hk. unfold ConnectionCall_new, ConnectionCall_init, bind, alloc.
    now rewrite Hk.
  - intros v h'. unfold ConnectionCall_new, ConnectionCall_init, alloc.
    unfold bind at 1. unfold bind at 1.
    destruct (kwargs !! "init_kwargs") as [ik|]; [| discriminate].
    unfold bind at 1.
    destruct (invoke_Call_init lib _ _ _ _) as [[[]| |] h1]; try discriminate.
    destruct (setattr _ _ _ h1) as [[[]| |] h2] eqn:E; try discriminate.
    unfold ret. intros [= <- <-]. exists ik. split; auto.
    eapply setattr_ok; eauto.
Qed.

(** The closure [wrapper] does the same with a host list that is an empty
    list object as with no host list. *)
Lemma wrapper_empty_hosts (l : loc) args kwargs func (h : heap) :
  h !! l = Some (OList []) ->
  wrapper lib (VRef l) args kwargs func h = wrapper lib VNone args kwargs func h.
Proof.
  intros Hl. unfold wrapper.
  assert (Ht : truthy (VRef l) h = (Ok false, h)).
  { unfold truthy. now rewrite (bind_ok _ _ _ _ _ (deref_ok _ _ _ Hl)). }
  now rewrite (bind_ok _ _ _ _ _ Ht).
Qed.

Lemma callable_heap v h r h' : callable v h = (r, h') -> h' = h.
Proof.
  destruct v; simpl; try (unfold ret; congruence).
  unfold bind, deref. destruct (h !! l) as [[ | | | []] | ]; unfold ret; congruence.
Qed.

(** C10. Decorating with [hosts=[]] runs exactly as decorating without the
    [hosts] keyword, outcome and store alike; and with no other argument it
    is the generic decoration [invoke.task()(func)] of the callable and
    nothing more: no [hosts] attribute is written. *)
Theorem task_empty_hosts_not_attached (args : list value)
    (kwargs : gmap string value) (func : value) (l : loc) (h : heap) :
  h !! l = Some (OList []) ->
  decorate_with lib args (<["hosts" := VRef l]> kwargs) func h =
    decorate_with lib args (delete "hosts" kwargs) func h /\
  decorate_with lib [] {[ "hosts" := VRef l ]} func h =
    (let* deco := invoke_task lib [] ∅ in
     match deco with
     | Decorator f => let* r := f func in ret (Result r)
     | Result v => let* r := call_object lib v [func] in ret (Result r)
     end) h.
Proof.
  intros Hl. split.
  - unfold decorate_with, task.
    rewrite lookup_insert_eq, lookup_delete_eq, delete_insert_eq, delete_delete_eq.
    cbn [default from_option id].
    destruct args as [|a [|b args]].
    + rewrite !bind_ret_l. apply bind_ext, wrapper_empty_hosts, Hl.
    + rewrite !bind_assoc.
      destruct (callable a h) as [[[]| |] h1] eqn:E;
        pose proof (callable_heap _ _ _ _ E) as ->.
      * rewrite !(bind_ok _ _ _ _ _ E), !bind_assoc.
        apply bind_ext, wrapper_empty_hosts, Hl.
      * rewrite !(bind_ok _ _ _ _ _ E), !bind_ret_l.
        apply bind_ext, wrapper_empty_hosts, Hl.
      * now rewrite !(bind_raise _ _ _ _ _ E).
      * now rewrite !(bind_stuck _ _ _ _ E).
    + rewrite !bind_ret_l. apply bind_ext, wrapper_empty_hosts, Hl.
  - unfold decorate_with, task.
    rewrite lookup_singleton_eq, delete_singleton_eq.
    cbn [default from_option id].
    rewrite bind_ret_l.
    rewrite (bind_ext _ _ _ _ (wrapper_empty_hosts l [] ∅ func h Hl)).
    unfold wrapper, truthy. rewrite bind_assoc, bind_ret_l. cbv beta iota.
    rewrite bind_assoc, bind_ret_l, bind_assoc.
    unfold bind.
    destruct (invoke_task lib [] ∅ h) as [[[v|f]| |] h1]; reflexivity.
Qed.

End TasksProperties.

(** ** The decorator and the parameterizer on the reference library *)

Section OnReferenceLibrary.

Lemma isinstance_inst (h : heap) l c attrs k :
  h !! l = Some (OInst c attrs) ->
  isinstance (VRef l) k h = (Ok (subclass c k), h).
Proof.
  intros E. unfold isinstance. now rewrite (bind_ok _ _ _ _ _ (deref_ok _ _ _ E)).
Qed.

Lemma callable_function (h : heap) l attrs :
  h !! l = Some (OInst KFunction attrs) ->
  callable (VRef l) h = (Ok true, h).
Proof.
  intros E. unfold callable. now rewrite (bind_ok _ _ _ _ _ (deref_ok _ _ _ E)).
Qed.

Lemma insert_alloc (h : heap) o o' : <[length h := o']> (h ++ [o]) = h ++ [o'].
Proof.
  rewrite insert_app_r_alt by lia. now rewrite Nat.sub_diag.
Qed.

(** invoke's [Task(body)] allocates a task that records its body. *)
Lemma Invoke_Task_new_body (h : heap) body :
  Invoke.Task_new [body] ∅ h =
    (Ok (VRef (length h)), h ++ [OInst KInvokeTask {[ "body" := body ]}]).
Proof.
  unfold Invoke.Task_new, alloc.
  rewrite (bind_ok _ _ h (length h) (h ++ [OInst KInvokeTask ∅])) by reflexivity.
  assert (Hi : Invoke.Task_init (length h) [body] ∅ (h ++ [OInst KInvokeTask ∅]) =
               (Ok tt, h ++ [OInst KInvokeTask {[ "body" := body ]}])).
  { unfold Invoke.Task_init.
    assert (Hp : forall h0, Invoke.bind_params Invoke.Task_params [body] ∅ h0 =
                            (Ok {[ "body" := body ]}, h0))
      by (intros h0; vm_compute; reflexivity).
    rewrite (bind_ok _ _ _ _ _ (Hp _)). rewrite lookup_singleton_eq.
    rewrite (bind_ok _ _ _ _ _ (deref_ok _ _ _ (lookup_alloc_new h _))).
    unfold store. rewrite insert_alloc. now rewrite (right_id_L ∅ (∪)). }
  now rewrite (bind_ok _ _ _ _ _ Hi).
Qed.

(** C7. With invoke's [@task], the bare form [@task] of the decorator raises
    [TypeError] on every function: [wrapper] hands the function to
    [invoke.task], which already returns the task, and then calls that task
    with the function where a context is expected.  The form [@task()]
    returns the task.  The store is the same after both. *)
Theorem task_bare_form_raises (h : heap) (f : loc)
    (attrs : gmap string value) :
  h !! f = Some (OInst KFunction attrs) ->
  Tasks.decorate_bare Invoke.lib (VRef f) h =
    (Raise (TypeError [Lit "Task expected a Context as first arg, got ";
                       FmtType (VRef f); Lit " instead!"]),
     h ++ [OInst KInvokeTask {[ "body" := VRef f ]}]) /\
  Tasks.decorate_with Invoke.lib [] ∅ (VRef f) h =
    (Ok (Result (VRef (length h))),
     h ++ [OInst KInvokeTask {[ "body" := VRef f ]}]).
Proof.
  intros Hf. pose proof (callable_function _ _ _ Hf) as Hc.
  pose proof (isinstance_inst _ _ _ _ KInvokeTask Hf) as Hi.
  change (subclass KFunction KInvokeTask) with false in Hi.
  split.
  - unfold Tasks.decorate_bare, Tasks.task.
    rewrite lookup_empty, delete_empty. cbn [default from_option id].
    rewrite (bind_ok _ _ _ _ _ Hc).
    unfold Tasks.wrapper, truthy. rewrite !bind_assoc, bind_ret_l.
    cbv beta iota. rewrite bind_assoc, bind_ret_l, bind_assoc.
    cbn [invoke_task call_object Invoke.lib].
    assert (Ht : Invoke.task [VRef f] ∅ h =
                 (Ok (Result (VRef (length h))),
                  h ++ [OInst KInvokeTask {[ "body" := VRef f ]}])).
    { unfold Invoke.task. rewrite lookup_empty.
      rewrite !bind_assoc, (bind_ok _ _ _ _ _ Hc).
      rewrite bind_assoc, (bind_ok _ _ _ _ _ Hi), bind_ret_l.
      now rewrite (bind_ok _ _ _ _ _ (Invoke_Task_new_body h (VRef f))). }
    rewrite (bind_ok _ _ _ _ _ Ht).
    set (h1 := h ++ [OInst KInvokeTask {[ "body" := VRef f ]}]).
    assert (Hcall : Invoke.call (VRef (length h)) [VRef f] h1 =
      (Raise (TypeError [Lit "Task expected a Context as first arg, got ";
                         FmtType (VRef f); Lit " instead!"]), h1)).
    { unfold Invoke.call.
      rewrite (bind_ok _ _ _ _ _
        (isinstance_inst h1 _ _ _ KInvokeTask (lookup_alloc_new h _))).
      change (subclass KInvokeTask KInvokeTask) with true. cbv iota.
      unfold Invoke.Task_call.
      assert (Hf1 : h1 !! f = Some (OInst KFunction attrs)).
      { unfold h1. rewrite lookup_alloc_old; auto. eapply lookup_lt_Some; eauto. }
      rewrite (bind_ok _ _ _ _ _ (isinstance_inst h1 _ _ _ KContext Hf1)).
      reflexivity. }
    now rewrite (bind_raise _ _ _ _ _ Hcall).
  - unfold Tasks.decorate_with, Tasks.task.
    rewrite lookup_empty, delete_empty. cbn [default from_option id].
    rewrite bind_ret_l.
    unfold Tasks.wrapper, truthy. rewrite !bind_assoc, bind_ret_l.
    cbv beta iota. rewrite bind_assoc, bind_ret_l, bind_assoc.
    cbn [invoke_task call_object Invoke.lib].
    assert (Ht : Invoke.task [] ∅ h = (Ok (Decorator (Invoke.inner ∅)), h))
      by (unfold Invoke.task; now rewrite lookup_empty).
    rewrite (bind_ok _ _ _ _ _ Ht). unfold Invoke.inner.
    now rewrite (bind_ok _ _ _ _ _ (Invoke_Task_new_body h (VRef f))).
Qed.

End OnReferenceLibrary.

(** ** [Executor.parameterize] *)

Section Parameterize.
Import Executor.

Lemma load_global_Connection h :
  load_global executor_globals "Connection" h =
    (Raise (NameError "Connection"), h).
Proof. reflexivity. Qed.

(** X19. Whatever the library, [parameterize] does not return: the name
    [Connection] is not bound in the module, so the call that should build
    the context raises [NameError] whenever execution gets that far. *)
Lemma parameterize_never_returns (lib : library) (call kw : value) (h : heap) :
  is_ok (parameterize lib call kw h).1 = false.
Proof.
  unfold parameterize, parameterize_in.
  unfold bind at 1. destruct (getattr call "task" h) as [[task| |] h1]; auto.
  unfold bind at 1. destruct (getattr call "args" h1) as [[args| |] h2]; auto.
  unfold bind at 1. destruct (getattr call "kwargs" h2) as [[kwargs| |] h3]; auto.
  unfold bind at 1.
  destruct (Tasks.ConnectionCall_new lib [] _ h3) as [[cc| |] h4];
    [| reflexivity | reflexivity].
  now rewrite (bind_raise _ _ _ _ _ (load_global_Connection h4)).
Qed.

(** C2. On the call and the record of [call_store], [parameterize] builds
    the ConnectionCall (same task and positional arguments, the record as
    [init_kwargs]) and then raises [NameError] at [Connection(...)]: no
    ConnectionCall is returned and no context is set. *)
Theorem parameterize_raises_NameError :
  parameterize Invoke.lib (VRef 3) (VRef 4) call_store =
    (Raise (NameError "Connection"),
     call_store ++
       [ OInst KConnectionCall
           {[ "task" := VRef 0; "called_as" := VNone; "args" := VRef 1;
              "kwargs" := VRef 7; "init_kwargs" := VRef 4 ]};
         ODict ∅ ]).
Proof. vm_compute. reflexivity. Qed.

(** With [Connection] bound in the module, the same run returns the
    ConnectionCall with a context built from the record. *)
Lemma parameterize_with_Connection_bound :
  parameterize_in Invoke.lib
    (<["Connection" := BClass KConnection]> executor_globals)
    (VRef 3) (VRef 4) call_store =
    (Ok (VRef 6),
     call_store ++
       [ OInst KConnectionCall
           {[ "task" := VRef 0; "called_as" := VNone; "args" := VRef 1;
              "kwargs" := VRef 7; "init_kwargs" := VRef 4;
              "context" := VRef 8 ]};
         ODict ∅;
         OInst KConnection {[ "host" := VStr "h1" ]} ]).
Proof. vm_compute. reflexivity. Qed.

End Parameterize.

(** ** The fan-out decision *)

Section FanOutProperties.
Import FanOut.
Variable parameterize : value -> value -> M value.

Lemma read_list_ok (h : heap) l xs :
  h !! l = Some (OList xs) -> read_list l h = (Ok xs, h).
Proof.
  intros E. unfold read_list. now rewrite (bind_ok _ _ _ _ _ (deref_ok _ _ _ E)).
Qed.

(** C3. A CLI override that is a non-empty list is the effective host list,
    the same object in the same store, whatever the task declares; with no
    override the effective host list is the task's own. *)
Theorem resolve_hosts_cli_precedence (h : heap) (static : option loc) :
  (forall cli x xs,
     h !! cli = Some (OList (x :: xs)) ->
     resolve_hosts (Some cli) static h = (Ok (Some cli), h)) /\
  resolve_hosts None static h = (Ok static, h).
Proof.
  split; [| reflexivity].
  intros cli x xs Hc. unfold resolve_hosts.
  now rewrite (bind_ok _ _ _ _ _ (read_list_ok _ _ _ Hc)).
Qed.

(** An override that is supplied but empty leaves the task's host list in
    force. *)
Lemma resolve_hosts_empty_override (h : heap) cli (static : option loc) :
  h !! cli = Some (OList []) ->
  resolve_hosts (Some cli) static h = (Ok static, h).
Proof.
  intros Hc. unfold resolve_hosts.
  now rewrite (bind_ok _ _ _ _ _ (read_list_ok _ _ _ Hc)).
Qed.

(** C4. When a host list was resolved and its normalization is the empty
    list, the expansion raises NothingToDo in the store normalization left:
    no batch is produced and the parameterizer is not run.  When no host
    list was resolved the expansion returns instead. *)
Theorem expand_nothing_to_do (fuel : nat) (cli static : option loc)
    (call : value) (h : heap) :
  (forall hosts nl h',
     resolve_hosts cli static h = (Ok (Some hosts), h) ->
     Executor.normalize_hosts fuel (VRef hosts) h = (Ok (VRef nl), h') ->
     h' !! nl = Some (OList []) ->
     expand parameterize fuel cli static call h = (Raise NothingToDo, h')) /\
  (resolve_hosts cli static h = (Ok None, h) ->
   expand parameterize fuel cli static call h = (Ok [call], h)).
Proof.
  split.
  - intros hosts nl h' Hr Hn Hl. unfold expand.
    rewrite (bind_ok _ _ _ _ _ Hr), (bind_ok _ _ _ _ _ Hn).
    now rewrite (bind_ok _ _ _ _ _ (read_list_ok _ _ _ Hl)).
  - intros Hr. unfold expand. now rewrite (bind_ok _ _ _ _ _ Hr).
Qed.

(** C5. With neither a CLI override nor a task-level host list, the batch is
    the one Call that was given, the very object, and the store is
    untouched: no ConnectionCall is built and no [init_kwargs] is set. *)
Theorem expand_single_call (fuel : nat) (call : value) (h : heap) :
  expand parameterize fuel None None call h = (Ok [call], h).
Proof. reflexivity. Qed.

End FanOutProperties.

(** ** The theorems at the sample stores *)

Section Instances.
Import Executor.

Lemma normalize_hosts_records_witness :
  exists out ys h',
    normalize_hosts 4 (VRef 0) mixed_store = (Ok (VRef out), h') /\
    h' !! out = Some (OList ys) /\
    length ys = 3 /\
    Forall2 (normalized_as mixed_store h') [VStr "a"; VRef 1; VStr "a"] ys.
Proof.
  apply (normalize_hosts_records mixed_store 0 [VStr "a"; VRef 1; VStr "a"] 4);
    [reflexivity | repeat constructor | simpl; lia].
Defined.

Lemma normalize_hosts_value_error_witness :
  exists h',
    normalize_hosts 4 (VRef 0) bad_store =
    (Raise (ValueError [Lit "Invalid host specification: "; Fmt (VInt 5)]), h').
Proof.
  apply (proj2 (normalize_hosts_value_error bad_store 0
                  [VStr "a"; VInt 5; VNone] 4 eq_refl
                  ltac:(repeat constructor) ltac:(simpl; lia))
               [VStr "a"] (VInt 5) [VNone]);
    [reflexivity | repeat constructor | reflexivity].
Defined.

Lemma normalize_hosts_input_unchanged_witness :
  (normalize_hosts 4 (VRef 0) mixed_store).2 !! 0 =
    Some (OList [VStr "a"; VRef 1; VStr "a"]).
Proof.
  apply (normalize_hosts_input_unchanged mixed_store 0 _ 4
           (normalize_hosts 4 (VRef 0) mixed_store).1);
    [reflexivity | apply surjective_pairing].
Defined.

Lemma ConnectionCall_init_kwargs_mandatory_witness :
  Tasks.ConnectionCall_new Invoke.lib [VRef 0] ∅ call_store =
    (Raise (KeyError "init_kwargs"), call_store ++ [OInst KConnectionCall ∅]).
Proof.
  apply (proj1 (ConnectionCall_init_kwargs_mandatory Invoke.lib
                  [VRef 0] ∅ call_store)).
  reflexivity.
Defined.

Lemma task_empty_hosts_not_attached_witness :
  Tasks.decorate_with Invoke.lib [] (<["hosts" := VRef 1]> ∅) (VRef 0) func_store =
    Tasks.decorate_with Invoke.lib [] (delete "hosts" ∅) (VRef 0) func_store.
Proof.
  apply (proj1 (task_empty_hosts_not_attached Invoke.lib [] ∅ (VRef 0) 1
                  func_store eq_refl)).
Defined.

Lemma task_bare_form_raises_witness :
  Tasks.decorate_bare Invoke.lib (VRef 0) func_store =
    (Raise (TypeError [Lit "Task expected a Context as first arg, got ";
                       FmtType (VRef 0); Lit " instead!"]),
     func_store ++ [OInst KInvokeTask {[ "body" := VRef 0 ]}]) /\
  Tasks.decorate_with Invoke.lib [] ∅ (VRef 0) func_store =
    (Ok (Result (VRef 2)),
     func_store ++ [OInst KInvokeTask {[ "body" := VRef 0 ]}]).
Proof.
  apply (task_bare_form_raises func_store 0 ∅). reflexivity.
Defined.

Lemma resolve_hosts_cli_precedence_witness :
  FanOut.resolve_hosts (Some 0) (Some 1) override_store =
    (Ok (Some 0), override_store).
Proof.
  apply (proj1 (resolve_hosts_cli_precedence override_store (Some 1))
               0 (VStr "y") []).
  reflexivity.
Defined.

Lemma expand_nothing_to_do_witness :
  FanOut.expand (parameterize Invoke.lib) 1 None (Some 5) (VRef 3) call_store =
    (Raise NothingToDo, call_store ++ [OList []]).
Proof.
  apply (proj1 (expand_nothing_to_do (parameterize Invoke.lib) 1 None (Some 5)
                  (VRef 3) call_store) 5 6);
    reflexivity.
Defined.

End Instances.

(** ** More on [Executor.normalize_hosts] *)

Section NormalizeIterables.
Import Executor.

Lemma iterates_frame hosts nl h h1 xs :
  iterates hosts nl h xs -> frame nl h h1 -> iterates hosts nl h1 xs.
Proof.
  intros Hit F h' i F'. apply Hit. eapply frame_trans; eauto.
Qed.

Lemma iterates_list (h : heap) hosts nl xs :
  h !! hosts = Some (OList xs) -> hosts <> nl ->
  iterates (VRef hosts) nl h xs.
Proof.
  intros Hh Hne h' i [_ F]. unfold iter_next.
  assert (Hh' : h' !! hosts = Some (OList xs)).
  { rewrite F; auto. eapply lookup_lt_Some; eauto. }
  now rewrite (bind_ok _ _ _ _ _ (deref_ok _ _ _ Hh')).
Qed.

Lemma iterates_tuple (h : heap) hosts nl xs :
  h !! hosts = Some (OTuple xs) -> hosts <> nl ->
  iterates (VRef hosts) nl h xs.
Proof.
  intros Hh Hne h' i [_ F]. unfold iter_next.
  assert (Hh' : h' !! hosts = Some (OTuple xs)).
  { rewrite F; auto. eapply lookup_lt_Some; eauto. }
  now rewrite (bind_ok _ _ _ _ _ (deref_ok _ _ _ Hh')).
Qed.


(** The loop over a stretch [pre] of accepted specifiers, for any iterable
    whose elements stay put during the run. *)
Lemma normalize_loop_iter pre : forall done acc h hosts nl post,
  iterates hosts nl h (done ++ pre ++ post) ->
  h !! nl = Some (OList acc) ->
  Forall (fun v => is_spec h v = true) pre ->
  exists h1 out,
    (forall fuel,
       normalize_loop (length pre + fuel) hosts nl (length done) h =
       normalize_loop fuel hosts nl (length done + length pre) h1) /\
    h1 !! nl = Some (OList (acc ++ out)) /\
    frame nl h h1 /\
    Forall2 (normalized_as h h1) pre out.
Proof.
  induction pre as [|v pre IH]; intros done acc h hosts nl post Hit Hn Hs.
  - exists h, []. simpl. rewrite Nat.add_0_r, app_nil_r.
    repeat split; auto.
  - apply Forall_cons in Hs as [Hv Hs].
    change ((v :: pre) ++ post) with (v :: (pre ++ post)) in Hit.
    assert (Hnext : iter_next hosts (length done) h = (Ok (Some v), h)).
    { rewrite (Hit h (length done) (frame_refl nl h)).
      now rewrite list_lookup_middle. }
    assert (Hln : nl < length h) by (eapply lookup_lt_Some; eauto).
    assert (Hnd : forall xs, h !! nl <> Some (ODict xs)) by (intros xs; congruence).
    assert (Hstep : exists r h2,
      frame nl h h2 /\ h2 !! nl = Some (OList (acc ++ [r])) /\
      normalized_as h h2 v r /\
      forall fuel,
        normalize_loop (S fuel) hosts nl (length done) h =
        normalize_loop fuel hosts nl (S (length done)) h2).
    { destruct v as [| | |s|l]; simpl in Hv; try discriminate.
      - set (h1 := h ++ [ODict {[ "host" := VStr s ]}]).
        assert (Hn1 : h1 !! nl = Some (OList acc))
          by (unfold h1; rewrite lookup_alloc_old; auto).
        exists (VRef (length h)), (<[nl := OList (acc ++ [VRef (length h)])]> h1).
        split; [eapply frame_trans; [apply frame_alloc | apply frame_store] |].
        split; [apply lookup_store_eq; unfold h1; rewrite length_app; lia |].
        split.
        + simpl. exists (length h). repeat split; auto.
          rewrite lookup_store_ne by lia. apply lookup_alloc_new.
        + intros fuel. cbn [normalize_loop].
          rewrite (bind_ok _ _ _ _ _ Hnext). cbn [isinstance_str].
          rewrite (bind_ok _ _ h (length h) h1) by reflexivity.
          now rewrite (bind_ok _ _ _ _ _
                         (list_append_ok _ _ _ (VRef (length h)) Hn1)).
      - destruct (h !! l) as [[]|] eqn:El; try discriminate.
        assert (Hd : isinstance_dict (VRef l) h = (Ok true, h)).
        { unfold isinstance_dict.
          now rewrite (bind_ok _ _ _ _ _ (deref_ok _ _ _ El)). }
        exists (VRef l), (<[nl := OList (acc ++ [VRef l])]> h).
        split; [apply frame_store |].
        split; [now apply lookup_store_eq |].
        split.
        + simpl. split; auto. rewrite lookup_store_ne; auto. congruence.
        + intros fuel. cbn [normalize_loop].
          rewrite (bind_ok _ _ _ _ _ Hnext). cbn [isinstance_str].
          rewrite (bind_ok _ _ _ _ _ Hd).
          now rewrite (bind_ok _ _ _ _ _ (list_append_ok _ _ _ (VRef l) Hn)). }
    destruct Hstep as (r & h2 & F12 & Hn2 & Hr & Hrun1).
    destruct (IH (done ++ [v]) (acc ++ [r]) h2 hosts nl post)
      as (h' & out & Hrun & Hout & F & Hrel).
    + rewrite <- app_assoc. now apply (iterates_frame _ _ h).
    + exact Hn2.
    + eapply Forall_impl; [exact Hs |]. intros x. simpl.
      now apply (is_spec_frame nl).
    + exists h', (r :: out).
      rewrite <- app_assoc in Hout. simpl in Hout.
      pose proof (frame_trans _ _ _ _ F12 F) as F'.
      split; [| split; [exact Hout | split; [exact F' |]]].
      * intros fuel. cbn [length Nat.add]. rewrite Hrun1.
        rewrite length_app, Nat.add_1_r in Hrun. rewrite Hrun.
        f_equal. lia.
      * constructor.
        -- destruct v as [| | |s|l]; simpl in Hr |- *; auto.
           ++ destruct Hr as (d & -> & Hd & Hl). exists d.
              repeat split; auto. destruct F as [_ F]. rewrite F; auto.
              ** eapply lookup_lt_Some; eauto.
              ** intros ->. congruence.
           ++ destruct Hr as [-> Hl]. split; auto.
              simpl in Hv. destruct (h !! l) as [[]|] eqn:El; try discriminate.
              rewrite <- El. destruct F' as [_ F''].
              apply F''; [eapply lookup_lt_Some; eauto | congruence].
        -- apply (normalized_as_rebase nl h h2); auto.
Qed.

(** The whole run of [normalize_hosts] over an iterable of accepted
    specifiers. *)
Lemma normalize_hosts_iter (h : heap) hosts xs fuel :
  (forall h0, frame (length h) h h0 -> iterates hosts (length h) h0 xs) ->
  Forall (fun v => is_spec h v = true) xs ->
  length xs < fuel ->
  exists ys h',
    normalize_hosts fuel hosts h = (Ok (VRef (length h)), h') /\
    h' !! length h = Some (OList ys) /\
    frame (length h) h h' /\
    Forall2 (normalized_as h h') xs ys.
Proof.
  intros Hit Hs Hf.
  pose proof (frame_alloc (length h) h (OList [])) as F0.
  assert (Hnone : forall d, h !! length h <> Some (ODict d)).
  { intros d. rewrite lookup_ge_None_2; [discriminate | lia]. }
  destruct (normalize_loop_iter xs [] [] (h ++ [OList []]) hosts (length h) [])
    as (h1 & out & Hrun & Hout & F & Hrel).
  - rewrite app_nil_r. now apply Hit.
  - apply lookup_alloc_new.
  - eapply Forall_impl; [exact Hs |]. intros x. simpl.
    now apply (is_spec_frame (length h) h).
  - exists out, h1. pose proof (frame_trans _ _ _ _ F0 F) as F'.
    split; [| split; [exact Hout | split; [exact F' |]]].
    + unfold normalize_hosts, alloc.
      rewrite (bind_ok _ _ h (length h) (h ++ [OList []])) by reflexivity.
      replace fuel with (length xs + S (fuel - length xs - 1)) by lia.
      unfold bind. rewrite Hrun. cbn [normalize_loop].
      assert (Hend : iter_next hosts (length xs) h1 = (Ok None, h1)).
      { rewrite (Hit h1 F' h1 (length xs) (frame_refl _ _)).
        now rewrite lookup_ge_None_2 by lia. }
      unfold bind. simpl length. simpl Nat.add. now rewrite Hend.
    + apply (normalized_as_rebase (length h) h (h ++ [OList []])); auto.
Qed.

(** The same run, cut at any position: the records of [pre] exist in an
    intermediate store [h1], those of [post] are built after it. *)
Lemma normalize_hosts_split (h : heap) hosts pre post fuel :
  (forall h0, frame (length h) h h0 ->
              iterates hosts (length h) h0 (pre ++ post)) ->
  Forall (fun v => is_spec h v = true) (pre ++ post) ->
  length (pre ++ post) < fuel ->
  exists h1 out1 out2 h2,
    normalize_hosts fuel hosts h = (Ok (VRef (length h)), h2) /\
    h2 !! length h = Some (OList (out1 ++ out2)) /\
    frame (length h) h h1 /\ frame (length h) h1 h2 /\
    Forall2 (normalized_as (h ++ [OList []]) h1) pre out1 /\
    Forall2 (normalized_as h1 h2) post out2.
Proof.
  intros Hit Hs Hf. rewrite length_app in Hf.
  apply Forall_app in Hs as [Hs1 Hs2].
  pose proof (frame_alloc (length h) h (OList [])) as F0.
  assert (Hnone : forall d, h !! length h <> Some (ODict d)).
  { intros d. rewrite lookup_ge_None_2; [discriminate | lia]. }
  destruct (normalize_loop_iter pre [] [] (h ++ [OList []]) hosts (length h) post)
    as (h1 & out1 & Hrun1 & Hout1 & F1 & Hrel1).
  { now apply Hit. }
  { apply lookup_alloc_new. }
  { eapply Forall_impl; [exact Hs1 |]. intros x. simpl.
    now apply (is_spec_frame (length h) h). }
  pose proof (frame_trans _ _ _ _ F0 F1) as F01.
  destruct (normalize_loop_iter post pre out1 h1 hosts (length h) [])
    as (h2 & out2 & Hrun2 & Hout2 & F2 & Hrel2).
  { rewrite app_nil_r. now apply Hit. }
  { exact Hout1. }
  { eapply Forall_impl; [exact Hs2 |]. intros x. simpl.
    now apply (is_spec_frame (length h) h). }
  pose proof (frame_trans _ _ _ _ F01 F2) as F02.
  exists h1, out1, out2, h2.
  split; [| split; [exact Hout2 | auto]].
  unfold normalize_hosts, alloc.
  rewrite (bind_ok _ _ h (length h) (h ++ [OList []])) by reflexivity.
  replace fuel with
    (length pre + (length post + S (fuel - length pre - length post - 1)))
    by lia.
  unfold bind. simpl length in Hrun1. simpl Nat.add in Hrun1.
  rewrite Hrun1, Hrun2. cbn [normalize_loop].
  assert (Hend : iter_next hosts (length pre + length post) h2 = (Ok None, h2)).
  { rewrite (Hit h2 F02 h2 _ (frame_refl _ _)).
    rewrite lookup_ge_None_2; [reflexivity | rewrite length_app; lia]. }
  unfold bind. now rewrite Hend.
Qed.





(** X2. A host list given as a tuple is normalized like a list: same
    length, a string [s] becomes a new record [{host: s}], a dict is passed
    through as the same object. *)
Theorem normalize_hosts_tuple (h : heap) (hosts : loc) (xs : list value)
    (fuel : nat) :
  h !! hosts = Some (OTuple xs) ->
  Forall (fun v => is_spec h v = true) xs ->
  length xs < fuel ->
  exists out ys h',
    normalize_hosts fuel (VRef hosts) h = (Ok (VRef out), h') /\
    h' !! out = Some (OList ys) /\
    length ys = length xs /\
    Forall2 (normalized_as h h') xs ys.
Proof.
  intros Hh Hs Hf.
  assert (Hlh : hosts < length h) by (eapply lookup_lt_Some; eauto).
  destruct (normalize_hosts_iter h (VRef hosts) xs fuel)
    as (ys & h' & Hrun & Hout & F & Hrel); auto.
  - intros h0 F0. apply (iterates_frame _ _ h); auto.
    apply iterates_tuple; auto. lia.
  - exists (length h), ys, h'. repeat split; auto.
    symmetry. eapply Forall2_length; eauto.
Qed.

(** X3. The result list and the records built from strings are new objects,
    and two strings at different positions, equal or not, get two different
    record objects: nothing is shared between the executions of duplicate
    hosts. *)
Theorem normalize_hosts_records_independent (h : heap) (hosts : loc)
    (xs : list value) (fuel : nat) :
  h !! hosts = Some (OList xs) ->
  Forall (fun v => is_spec h v = true) xs ->
  length xs < fuel ->
  exists out ys h',
    normalize_hosts fuel (VRef hosts) h = (Ok (VRef out), h') /\
    h' !! out = Some (OList ys) /\
    h !! out = None /\
    forall i j s t,
      i < j ->
      xs !! i = Some (VStr s) -> xs !! j = Some (VStr t) ->
      exists di dj,
        ys !! i = Some (VRef di) /\ ys !! j = Some (VRef dj) /\
        di <> dj /\ h !! di = None /\ h !! dj = None.
Proof.
  intros Hh Hs Hf.
  assert (Hlh : hosts < length h) by (eapply lookup_lt_Some; eauto).
  assert (Hit : forall zs, zs = xs -> forall h0, frame (length h) h h0 ->
                iterates (VRef hosts) (length h) h0 zs).
  { intros zs -> h0 F0. apply (iterates_frame _ _ h); auto.
    apply iterates_list; auto. lia. }
  destruct (normalize_hosts_iter h (VRef hosts) xs fuel (Hit xs eq_refl) Hs Hf)
    as (ys & h' & Hrun & Hout & F & Hrel).
  exists (length h), ys, h'.
  split; [exact Hrun | split; [exact Hout | split]].
  { apply lookup_ge_None_2. lia. }
  intros i j s t Hij Hi Hj.
  assert (Hjl : j < length xs) by (eapply lookup_lt_Some; eauto).
  assert (Hsplit : take j xs ++ drop j xs = xs) by apply take_drop.
  destruct (normalize_hosts_split h (VRef hosts) (take j xs) (drop j xs) fuel)
    as (h1 & out1 & out2 & h2 & Hrun2 & Hout2 & F1 & F2 & Hrel1 & Hrel2).
  { now apply Hit. }
  { now rewrite Hsplit. }
  { now rewrite Hsplit. }
  rewrite Hrun in Hrun2. injection Hrun2 as <-.
  rewrite Hout in Hout2. injection Hout2 as ->.
  assert (Hl1 : length out1 = j).
  { rewrite <- (Forall2_length _ _ _ Hrel1). rewrite length_take. lia. }
  assert (Hi1 : take j xs !! i = Some (VStr s))
    by (rewrite lookup_take_lt; auto).
  assert (Hj2 : drop j xs !! 0 = Some (VStr t))
    by (rewrite lookup_drop, Nat.add_0_r; auto).
  destruct (Forall2_lookup_l _ _ _ _ _ Hrel1 Hi1) as (ri & Hri & Hni).
  destruct (Forall2_lookup_l _ _ _ _ _ Hrel2 Hj2) as (rj & Hrj & Hnj).
  simpl in Hni, Hnj.
  destruct Hni as (di & -> & Hdi0 & Hdi). destruct Hnj as (dj & -> & Hdj0 & Hdj).
  assert (Hdi1 : di < length h1) by (eapply lookup_lt_Some; eauto).
  rewrite length_app in Hdi0. simpl in Hdi0.
  destruct F1 as [L1 _].
  exists di, dj. repeat split.
  - rewrite lookup_app_l; auto. lia.
  - rewrite lookup_app_r by lia. now rewrite Hl1, Nat.sub_diag.
  - lia.
  - apply lookup_ge_None_2. lia.
  - apply lookup_ge_None_2. lia.
Qed.

End NormalizeIterables.

(** ** More on [fabric/tasks.py] *)

Section ConnectionCallRepr.
Import Tasks.
Variable Call_repr : value -> M string.

Lemma truthy_dict (h : heap) l d :
  h !! l = Some (ODict d) ->
  truthy (VRef l) h = (Ok (negb (bool_decide (d = ∅))), h).
Proof.
  intros E. unfold truthy. now rewrite (bind_ok _ _ _ _ _ (deref_ok _ _ _ E)).
Qed.

Lemma getitem_dict (h : heap) l d key :
  h !! l = Some (ODict d) ->
  getitem (VRef l) key h =
    match d !! key with
    | Some x => (Ok x, h)
    | None => (Raise (KeyError key), h)
    end.
Proof.
  intros E. unfold getitem. rewrite (bind_ok _ _ _ _ _ (deref_ok _ _ _ E)).
  now destruct (d !! key).
Qed.

(** X4. The text of a ConnectionCall whose [init_kwargs] is a dict with a
    string under [host] is the text of the plain Call with its last
    character replaced by [, host='<host>'>]; when [init_kwargs] is [None] or
    an empty dict it is the text of the plain Call, unchanged. *)
Theorem ConnectionCall_repr_host (self : value) (h h1 : heap) (r : string)
    (ik : value) :
  Call_repr self h = (Ok r, h1) ->
  getattr self "init_kwargs" h1 = (Ok ik, h1) ->
  (forall l d s,
     ik = VRef l -> h1 !! l = Some (ODict d) ->
     d !! "host" = Some (VStr s) ->
     ConnectionCall_repr Call_repr self h =
       (Ok (str_init r ++ ", host='" ++ s ++ "'>")%string, h1)) /\
  (truthy ik h1 = (Ok false, h1) ->
   ConnectionCall_repr Call_repr self h = (Ok r, h1)).
Proof.
  intros Hr Hg. split.
  - intros l d s -> Hl Hd. unfold ConnectionCall_repr.
    rewrite (bind_ok _ _ _ _ _ Hr), (bind_ok _ _ _ _ _ Hg).
    rewrite (bind_ok _ _ _ _ _ (truthy_dict _ _ _ Hl)).
    assert (Hne : bool_decide (d = ∅) = false).
    { apply bool_decide_eq_false. intros ->. now rewrite lookup_empty in Hd. }
    rewrite Hne. cbn [negb].
    pose proof (getitem_dict _ _ _ "host" Hl) as Hgi. rewrite Hd in Hgi.
    now rewrite (bind_ok _ _ _ _ _ Hgi).
  - intros Ht. unfold ConnectionCall_repr.
    now rewrite (bind_ok _ _ _ _ _ Hr), (bind_ok _ _ _ _ _ Hg),
      (bind_ok _ _ _ _ _ Ht).
Qed.

(** X5. The text of a ConnectionCall whose [init_kwargs] is a non-empty dict
    without the key [host] cannot be produced: [__repr__] raises
    [KeyError('host')]. *)
Theorem ConnectionCall_repr_needs_host (self : value) (h h1 : heap)
    (r : string) (l : loc) (d : gmap string value) :
  Call_repr self h = (Ok r, h1) ->
  getattr self "init_kwargs" h1 = (Ok (VRef l), h1) ->
  h1 !! l = Some (ODict d) ->
  d <> ∅ ->
  d !! "host" = None ->
  ConnectionCall_repr Call_repr self h = (Raise (KeyError "host"), h1).
Proof.
  intros Hr Hg Hl Hne Hd. unfold ConnectionCall_repr.
  rewrite (bind_ok _ _ _ _ _ Hr), (bind_ok _ _ _ _ _ Hg).
  rewrite (bind_ok _ _ _ _ _ (truthy_dict _ _ _ Hl)).
  rewrite bool_decide_eq_false_2 by exact Hne. cbn [negb].
  pose proof (getitem_dict _ _ _ "host" Hl) as Hgi. rewrite Hd in Hgi.
  now rewrite (bind_raise _ _ _ _ _ Hgi).
Qed.

End ConnectionCallRepr.

Section MoreOnTask.
Import Tasks.

Lemma truthy_nonempty_list (h : heap) l x xs :
  h !! l = Some (OList (x :: xs)) -> truthy (VRef l) h = (Ok true, h).
Proof.
  intros E. unfold truthy. now rewrite (bind_ok _ _ _ _ _ (deref_ok _ _ _ E)).
Qed.

Lemma setattr_inst (h : heap) l c attrs name x :
  h !! l = Some (OInst c attrs) ->
  setattr (VRef l) name x h = (Ok tt, <[l := OInst c (<[name := x]> attrs)]> h).
Proof.
  intros E. unfold setattr. now rewrite (bind_ok _ _ _ _ _ (deref_ok _ _ _ E)).
Qed.

(** X6. [@task(hosts=H, ...)] with a non-empty list [H] sets the attribute
    [hosts] of the decorated callable to [H] itself (the same list object,
    not a copy) and then is the generic decoration with the remaining
    keywords: the generic layer is never given [hosts]. *)
Theorem task_hosts_attached_to_callable (lib : library)
    (kwargs : gmap string value) (f : loc) (c : klass)
    (attrs : gmap string value) (l : loc) (x : value) (xs : list value)
    (h : heap) :
  h !! f = Some (OInst c attrs) ->
  h !! l = Some (OList (x :: xs)) ->
  decorate_with lib [] (<["hosts" := VRef l]> kwargs) (VRef f) h =
    (let* deco := invoke_task lib [] (delete "hosts" kwargs) in
     match deco with
     | Decorator g => let* r := g (VRef f) in ret (Result r)
     | Result v => let* r := call_object lib v [VRef f] in ret (Result r)
     end) (<[f := OInst c (<["hosts" := VRef l]> attrs)]> h).
Proof.
  intros Hf Hl. unfold decorate_with, task.
  rewrite lookup_insert_eq, delete_insert_eq. cbn [default from_option id].
  rewrite bind_ret_l. unfold wrapper.
  rewrite bind_assoc, (bind_ok _ _ _ _ _ (truthy_nonempty_list _ _ _ _ Hl)).
  rewrite bind_assoc, (bind_ok _ _ _ _ _ (setattr_inst _ _ _ _ "hosts" (VRef l) Hf)).
  rewrite !bind_assoc. unfold bind.
  destruct (invoke_task lib [] (delete "hosts" kwargs) _) as [[[v|g]| |] h1];
    reflexivity.
Qed.

(** X7. With invoke's [@task], a single pre-task given positionally,
    [@task(pre)], is mistaken for the bare form: the decorator builds a task
    whose body is [pre] and then calls it with the function, which raises
    [TypeError]; the function is never wrapped. *)
Theorem task_single_pre_task_raises (h : heap) (t f : loc)
    (tattrs fattrs : gmap string value) :
  h !! t = Some (OInst KInvokeTask tattrs) ->
  h !! f = Some (OInst KFunction fattrs) ->
  decorate_with Invoke.lib [VRef t] ∅ (VRef f) h =
    (Raise (TypeError [Lit "Task expected a Context as first arg, got ";
                       FmtType (VRef f); Lit " instead!"]),
     h ++ [OTuple [VRef t];
           OInst KInvokeTask {[ "body" := VRef t; "pre" := VRef (length h) ]}]).
Proof.
  intros Ht Hf.
  assert (Hc : callable (VRef t) h = (Ok true, h)).
  { unfold callable. now rewrite (bind_ok _ _ _ _ _ (deref_ok _ _ _ Ht)). }
  pose proof (isinstance_inst _ _ _ _ KInvokeTask Ht) as Hi.
  change (subclass KInvokeTask KInvokeTask) with true in Hi.
  set (h1 := h ++ [OTuple [VRef t]]).
  set (p := ({[ "body" := VRef t; "pre" := VRef (length h) ]} : gmap string value)).
  set (h2 := h1 ++ [OInst KInvokeTask p]).
  assert (Hl1 : length h1 = S (length h))
    by (unfold h1; rewrite length_app; simpl; lia).
  assert (Hnew : Invoke.Task_new [VRef t] (<["pre" := VRef (length h)]> ∅) h1 =
                 (Ok (VRef (length h1)), h2)).
  { unfold Invoke.Task_new, alloc.
    rewrite (bind_ok _ _ h1 (length h1) (h1 ++ [OInst KInvokeTask ∅]))
      by reflexivity.
    assert (Hinit : Invoke.Task_init (length h1) [VRef t]
                      (<["pre" := VRef (length h)]> ∅)
                      (h1 ++ [OInst KInvokeTask ∅]) = (Ok tt, h2)).
    { unfold Invoke.Task_init.
      assert (Hp : forall h0,
        Invoke.bind_params Invoke.Task_params [VRef t]
          (<["pre" := VRef (length h)]> ∅) h0 = (Ok p, h0))
        by (intros h0; vm_compute; reflexivity).
      rewrite (bind_ok _ _ _ _ _ (Hp _)).
      assert (Hb : p !! "body" = Some (VRef t)) by (vm_compute; reflexivity).
      rewrite Hb.
      rewrite (bind_ok _ _ _ _ _ (deref_ok _ _ _ (lookup_alloc_new h1 _))).
      unfold store. rewrite insert_alloc. now rewrite (right_id_L ∅ (∪)). }
    now rewrite (bind_ok _ _ _ _ _ Hinit). }
  assert (Htask : Invoke.task [VRef t] ∅ h =
                  (Ok (Decorator (Invoke.inner (<["pre" := VRef (length h)]> ∅))), h1)).
  { unfold Invoke.task. rewrite lookup_empty.
    rewrite !bind_assoc, (bind_ok _ _ _ _ _ Hc).
    rewrite bind_assoc, (bind_ok _ _ _ _ _ Hi), bind_ret_l.
    cbv iota. rewrite lookup_empty. unfold alloc.
    now rewrite (bind_ok _ _ h (length h) h1) by reflexivity. }
  assert (Hcall : Invoke.call (VRef (length h1)) [VRef f] h2 =
    (Raise (TypeError [Lit "Task expected a Context as first arg, got ";
                       FmtType (VRef f); Lit " instead!"]), h2)).
  { unfold Invoke.call.
    rewrite (bind_ok _ _ _ _ _
      (isinstance_inst h2 _ _ _ KInvokeTask (lookup_alloc_new h1 _))).
    change (subclass KInvokeTask KInvokeTask) with true. cbv iota.
    unfold Invoke.Task_call.
    assert (Hf2 : h2 !! f = Some (OInst KFunction fattrs)).
    { assert (Hlf : f < length h) by (eapply lookup_lt_Some; eauto).
      unfold h2. rewrite lookup_alloc_old by lia.
      unfold h1. now rewrite lookup_alloc_old by lia. }
    rewrite (bind_ok _ _ _ _ _ (isinstance_inst h2 _ _ _ KContext Hf2)).
    reflexivity. }
  unfold decorate_with, task.
  rewrite lookup_empty, delete_empty. cbn [default from_option id].
  assert (Hw : wrapper Invoke.lib VNone [VRef t] ∅ (VRef t) h =
               (Ok (VRef (length h1)), h2)).
  { unfold wrapper, truthy. rewrite bind_ret_l. cbv beta iota.
    rewrite bind_ret_l. cbn [invoke_task call_object Invoke.lib].
    rewrite (bind_ok _ _ _ _ _ Htask). exact Hnew. }
  rewrite bind_assoc, (bind_ok _ _ _ _ _ Hc).
  rewrite bind_assoc, (bind_ok _ _ _ _ _ Hw), bind_ret_l.
  cbn [call_object Invoke.lib]. rewrite (bind_raise _ _ _ _ _ Hcall).
  unfold h2, h1. now rewrite <- app_assoc.
Qed.


End MoreOnTask.

(** ** [Session.__init__] of [fabric/testing/base.py] *)

Section SessionProperties.
Import Testing.

Lemma arg_or_truthy a b :
  arg_truthy (arg_or a b) = arg_truthy a || arg_truthy b.
Proof. unfold arg_or. now destruct (arg_truthy a) eqn:E; rewrite ?E. Qed.



(** X11. When none of [cmd], [out], [err], [exit], [waits] is true and no
    commands are listed, the Session gets the one default command whatever
    [in_] is: input data given on its own is dropped. *)
Theorem Session_init_drops_lone_input (host_ user_ port_ : arg)
    (commands_ : option (list Command))
    (cmd_ out_ in__ err_ exit_ waits_ enable_sftp : arg)
    (transfers_ : option (list (gmap string arg))) :
  list_truthy commands_ = false ->
  arg_truthy cmd_ = false -> arg_truthy out_ = false ->
  arg_truthy err_ = false -> arg_truthy exit_ = false ->
  arg_truthy waits_ = false ->
  exists s,
    Session_init host_ user_ port_ commands_ cmd_ out_ in__ err_ exit_ waits_
      enable_sftp transfers_ = Ok s /\
    commands s = [Command_new ∅] /\
    in_ (Command_new ∅) = ANone.
Proof.
  intros Hc H1 H2 H3 H4 H5. unfold Session_init.
  assert (Hp : arg_truthy (arg_or cmd_ (arg_or out_ (arg_or err_
                 (arg_or exit_ waits_)))) = false)
    by (rewrite !arg_or_truthy, H1, H2, H3, H4, H5; reflexivity).
  rewrite Hp, Hc. cbn [andb]. eexists. split; [reflexivity |].
  cbn [commands]. split; [| reflexivity].
  now destruct commands_ as [[|c cs]|].
Qed.

(** X12. A Session described by [cmd] (and no [commands]) gets exactly one
    command, built from the arguments that are not [None]: those keep their
    value, [in_] included, and the others take [Command]'s defaults. *)
Theorem Session_init_single_command (host_ user_ port_ : arg)
    (commands_ : option (list Command))
    (cmd_ out_ in__ err_ exit_ waits_ enable_sftp : arg)
    (transfers_ : option (list (gmap string arg))) :
  list_truthy commands_ = false ->
  arg_truthy cmd_ = true ->
  exists s,
    Session_init host_ user_ port_ commands_ cmd_ out_ in__ err_ exit_ waits_
      enable_sftp transfers_ = Ok s /\
    guard_only s = false /\
    commands s =
      [ {| cmd := cmd_;
           out := if is_not_None out_ then out_ else ABytes "";
           err := if is_not_None err_ then err_ else ABytes "";
           in_ := in__;
           exit := if is_not_None exit_ then exit_ else AInt 0;
           waits := if is_not_None waits_ then waits_ else AInt 0 |} ].
Proof.
  intros Hc H1. unfold Session_init.
  assert (Hp : arg_truthy (arg_or cmd_ (arg_or out_ (arg_or err_
                 (arg_or exit_ waits_)))) = true)
    by (rewrite !arg_or_truthy, H1; reflexivity).
  rewrite Hp, Hc, H1. cbn [andb orb negb]. eexists. split; [reflexivity |].
  split; [reflexivity |]. cbn [commands]. f_equal.
  assert (Hn : is_not_None cmd_ = true) by (now destruct cmd_).
  unfold Command_new, set_if_given. rewrite Hn.
  destruct out_, err_, in__, exit_, waits_; reflexivity.
Qed.

End SessionProperties.

(** ** [posixpath] and [str.format] *)

Section PathsAndFormat.
Import Posixpath.











End PathsAndFormat.

(** ** [Transfer.get] and [Transfer.put] *)

Section TransferProperties.
Import Transfer.
Context {W F C : Type}.
Variable E : @env W F C.

Lemma io_bind_done {A B} (m : IO A) (k : A -> IO B) (w : W) a w' :
  m w = (Done a, w') -> io_bind m k w = k a w'.
Proof. intros Hm. unfold io_bind. now rewrite Hm. Qed.

Lemma io_bind_fail {A B} (m : IO A) (k : A -> IO B) (w : W) e w' :
  m w = (Fail e, w') -> io_bind m k w = (Fail e, w').
Proof. intros Hm. unfold io_bind. now rewrite Hm. Qed.

(** X13. [put] of a file-like object without [remote] raises [ValueError];
    by then the SFTP session has been requested from the connection, and
    nothing else has been done: no upload, no query of the remote
    directory. *)
Theorem put_file_object_needs_remote (f : F) (preserve_mode : bool)
    (w w1 : W) :
  connection_sftp E w = (Done tt, w1) ->
  put E (inr f) None preserve_mode w =
    (Fail (PyError (ValueError
       [Lit "'remote' must be specified when 'local' is a file-like object"])),
     w1).
Proof.
  intros Hs. unfold put. now rewrite (io_bind_done _ _ _ _ _ Hs).
Qed.

(** X14. [put] of a path that is not an existing regular file raises
    [OSError] naming the path after [expanduser]; the remote directory has
    not been queried and nothing has been opened or uploaded. *)
Theorem put_missing_local_file (s : string) (remote_ : option string)
    (preserve_mode : bool) (w w1 w2 : W) :
  connection_sftp E w = (Done tt, w1) ->
  os_path_isfile E (os_path_expanduser E s) w1 = (Done false, w2) ->
  put E (inl s) remote_ preserve_mode w =
    (Fail (OSError ("Local file '" ++ os_path_expanduser E s
                    ++ "' does not exist")), w2).
Proof.
  intros Hs Hf. unfold put.
  rewrite (io_bind_done _ _ _ _ _ Hs), (io_bind_done _ _ _ _ _ Hf).
  reflexivity.
Qed.


End TransferProperties.

Section GetProperties.
Import Transfer.
Context {W F C : Type}.
Variable E : @env W F C.



(** X17. When the download itself fails, [get] has already created the
    missing local directories and opened the local file for writing; it
    closes that file, does not touch the file mode, and lets the failure
    through. *)
Theorem get_closes_file_on_failed_download (remote_ template path0 : string)
    (cwd : option string) (host user port : string) (lf : F) (e : failure)
    (c0 : ascii) (t0 : string) (w w1 w2 w3 w4 w5 w6 w7 : W) :
  template = String c0 t0 ->
  connection_sftp E w = (Done tt, w1) ->
  sftp_getcwd E w1 = (Done cwd, w2) ->
  str_of (connection_host E) = Done host ->
  str_of (connection_user E) = Done user ->
  str_of (connection_port E) = Done port ->
  format {[ "host" := host; "user" := user; "port" := port;
            "basename" := Posixpath.basename
                            (Posixpath.join (default "" cwd) remote_);
            "dirname" := Posixpath.dirname
                           (Posixpath.join (default "" cwd) remote_) ]}
         template = Done path0 ->
  os_path_isdir E path0 w2 = (Done false, w3) ->
  os_path_dirname E path0 <> "" ->
  os_makedirs E (os_path_dirname E path0) w3 = (Done tt, w4) ->
  open_wb E path0 w4 = (Done lf, w5) ->
  sftp_getfo E (Posixpath.join (default "" cwd) remote_) lf w5 = (Fail e, w6) ->
  file_close E lf w6 = (Done tt, w7) ->
  get E remote_ (LPath template) true w = (Fail e, w7).
Proof.
  intros -> Hs Hc Hh Hu Hp Hfmt Hdir Hne Hmk Hop Hget Hcl. unfold get.
  rewrite (io_bind_done _ _ _ _ _ Hs), (io_bind_done _ _ _ _ _ Hc).
  unfold io_bind at 1, io_ret at 1.
  unfold io_bind, io_lift. rewrite Hh, Hu, Hp, Hfmt, Hdir.
  apply String.eqb_neq in Hne. rewrite Hne. cbn [negb].
  rewrite Hmk, Hop. unfold finally. now rewrite Hget, Hcl.
Qed.


End GetProperties.

(** ** The further theorems at the sample stores *)

Section MoreInstances.
Import Executor.


Lemma normalize_hosts_tuple_witness :
  exists out ys h',
    normalize_hosts 3 (VRef 0) tuple_store = (Ok (VRef out), h') /\
    h' !! out = Some (OList ys) /\
    length ys = 2 /\
    Forall2 (normalized_as tuple_store h') [VStr "a"; VRef 1] ys.
Proof.
  apply (normalize_hosts_tuple tuple_store 0 [VStr "a"; VRef 1] 3);
    [reflexivity | repeat constructor | simpl; lia].
Defined.

Lemma normalize_hosts_records_independent_witness :
  exists out ys h',
    normalize_hosts 4 (VRef 0) mixed_store = (Ok (VRef out), h') /\
    h' !! out = Some (OList ys) /\
    mixed_store !! out = None /\
    forall i j s t,
      i < j ->
      [VStr "a"; VRef 1; VStr "a"] !! i = Some (VStr s) ->
      [VStr "a"; VRef 1; VStr "a"] !! j = Some (VStr t) ->
      exists di dj,
        ys !! i = Some (VRef di) /\ ys !! j = Some (VRef dj) /\
        di <> dj /\ mixed_store !! di = None /\ mixed_store !! dj = None.
Proof.
  apply (normalize_hosts_records_independent mixed_store 0
           [VStr "a"; VRef 1; VStr "a"] 4);
    [reflexivity | repeat constructor | simpl; lia].
Defined.

Lemma ConnectionCall_repr_host_witness :
  Tasks.ConnectionCall_repr sample_Call_repr (VRef 1) repr_store =
    (Ok "<Call 'deploy', args: (), kwargs: {}, host='web1'>", repr_store).
Proof.
  apply (proj1 (ConnectionCall_repr_host sample_Call_repr (VRef 1)
                  repr_store repr_store
                  "<Call 'deploy', args: (), kwargs: {}>" (VRef 0)
                  eq_refl eq_refl)
               0 {[ "host" := VStr "web1" ]} "web1");
    reflexivity.
Defined.

Lemma ConnectionCall_repr_needs_host_witness :
  Tasks.ConnectionCall_repr sample_Call_repr (VRef 3) repr_store =
    (Raise (KeyError "host"), repr_store).
Proof.
  apply (ConnectionCall_repr_needs_host sample_Call_repr (VRef 3)
           repr_store repr_store "<Call 'deploy', args: (), kwargs: {}>" 2
           {[ "user" := VStr "bob" ]});
    try reflexivity.
  intros Hd. apply (f_equal (fun m => m !! "user")) in Hd. discriminate Hd.
Defined.

Lemma task_hosts_attached_to_callable_witness :
  Tasks.decorate_with Invoke.lib [] (<["hosts" := VRef 1]> ∅) (VRef 0)
    hosts_store =
  (let* deco := invoke_task Invoke.lib [] (delete "hosts" ∅) in
   match deco with
   | Decorator g => let* r := g (VRef 0) in ret (Result r)
   | Result v => let* r := call_object Invoke.lib v [VRef 0] in ret (Result r)
   end)
    (<[0 := OInst KFunction (<["hosts" := VRef 1]> ∅)]> hosts_store).
Proof.
  apply (task_hosts_attached_to_callable Invoke.lib ∅ 0 KFunction ∅ 1
           (VStr "web1") [] hosts_store);
    reflexivity.
Defined.

Lemma task_single_pre_task_raises_witness :
  Tasks.decorate_with Invoke.lib [VRef 0] ∅ (VRef 1) pre_task_store =
    (Raise (TypeError [Lit "Task expected a Context as first arg, got ";
                       FmtType (VRef 1); Lit " instead!"]),
     pre_task_store ++
       [OTuple [VRef 0];
        OInst KInvokeTask {[ "body" := VRef 0; "pre" := VRef 2 ]}]).
Proof.
  apply (task_single_pre_task_raises pre_task_store 0 1
           {[ "body" := VNone ]} ∅);
    reflexivity.
Defined.

End MoreInstances.

Section SessionInstances.
Import Testing.


Lemma Session_init_drops_lone_input_witness :
  exists s,
    Session_init ANone ANone ANone None ANone ANone (ABytes "yes") ANone
      (AInt 0) ANone (ABool false) None = Ok s /\
    commands s = [Command_new ∅] /\
    in_ (Command_new ∅) = ANone.
Proof.
  apply (Session_init_drops_lone_input ANone ANone ANone None ANone ANone
           (ABytes "yes") ANone (AInt 0) ANone (ABool false) None);
    reflexivity.
Defined.

Lemma Session_init_single_command_witness :
  exists s,
    Session_init (AStr "web1") ANone ANone None (AStr "ls") ANone
      (ABytes "yes") ANone (AInt 1) ANone (ABool false) None = Ok s /\
    guard_only s = false /\
    commands s =
      [ {| cmd := AStr "ls"; out := ABytes ""; err := ABytes "";
           in_ := ABytes "yes"; exit := AInt 1; waits := AInt 0 |} ].
Proof.
  apply (Session_init_single_command (AStr "web1") ANone ANone None
           (AStr "ls") ANone (ABytes "yes") ANone (AInt 1) ANone
           (ABool false) None);
    reflexivity.
Defined.

End SessionInstances.

Section TransferInstances.
Import Transfer.

Lemma put_file_object_needs_remote_witness :
  put (recording_env plain_fake) (inr 0) None true [] =
    (Fail (PyError (ValueError
       [Lit "'remote' must be specified when 'local' is a file-like object"])),
     [EvSftp]).
Proof.
  apply (put_file_object_needs_remote (recording_env plain_fake) 0 true
           [] [EvSftp]).
  reflexivity.
Defined.

Lemma put_missing_local_file_witness :
  put (recording_env plain_fake) (inl "/srv/none") None true [] =
    (Fail (OSError "Local file '/srv/none' does not exist"),
     [EvSftp; EvIsfile "/srv/none"]).
Proof.
  apply (put_missing_local_file (recording_env plain_fake) "/srv/none" None
           true [] [EvSftp] [EvSftp; EvIsfile "/srv/none"]);
    reflexivity.
Defined.



Lemma get_closes_file_on_failed_download_witness :
  get (recording_env failing_fake) "pub/f.txt" (LPath "/tmp/out/f.txt")
    true [] =
    (Fail (Foreign "IOError"),
     [EvSftp; EvGetcwd; EvIsdir "/tmp/out/f.txt"; EvMakedirs "/tmp/out";
      EvOpenW "/tmp/out/f.txt"; EvGetfo "/home/deploy/pub/f.txt"; EvClose]).
Proof.
  apply (get_closes_file_on_failed_download (recording_env failing_fake)
           "pub/f.txt" "/tmp/out/f.txt" "/tmp/out/f.txt" (Some "/home/deploy")
           "web1" "deploy" "22" 0 (Foreign "IOError") "/"%char "tmp/out/f.txt"
           [] [EvSftp] [EvSftp; EvGetcwd]
           [EvSftp; EvGetcwd; EvIsdir "/tmp/out/f.txt"]
           [EvSftp; EvGetcwd; EvIsdir "/tmp/out/f.txt"; EvMakedirs "/tmp/out"]
           [EvSftp; EvGetcwd; EvIsdir "/tmp/out/f.txt"; EvMakedirs "/tmp/out";
            EvOpenW "/tmp/out/f.txt"]
           [EvSftp; EvGetcwd; EvIsdir "/tmp/out/f.txt"; EvMakedirs "/tmp/out";
            EvOpenW "/tmp/out/f.txt"; EvGetfo "/home/deploy/pub/f.txt"]);
    try (vm_compute; reflexivity); discriminate.
Defined.


End TransferInstances.
